(** * Fever Oracle: the symptom-assessment chatbot

    A shallow embedding of the two chatbot components of the repository,

    - [patient-portal/src/components/Chatbot.jsx] (module [PatientPortal]):
      remote-first with a local rule-based fallback, and
    - the frontend [Chatbot.tsx] copy (module [Frontend]): remote only,

    and the properties of the dialogue engine and session controller
    proved about them.

    Modelling conventions.
    - React state is the record [State]; a [setX] call is a write on the
      pending state, while the handler reads the values captured by its
      closure at render time.  Handlers are therefore functions of the
      closure snapshot that return a state transformer ([Action]).
    - Effects other than state writes (the [onComplete] callback, the
      [fetch] calls, the console) are recorded in a trace of [Effect]s.
    - The outcome of every [fetch] an [async] handler awaits is an explicit
      argument ([FetchResult]); [Date.now()] is the argument [now], which
      stands for every reading of the clock in one run of a handler and
      for the [new Date()] of the same message.  A handler
      taken as one [Action] runs without another event in between; the
      handlers of the patient portal are also given cut at their awaits
      ([portalRuns]), where other events may come in between.
    - Strings are [string]s of 8-bit characters standing for ASCII text,
      which covers every literal the components compare against.  White
      space and case mapping are those of the ASCII range; a statement
      that depends on where white space ends is made for ASCII text
      ([asciiText]).
    - JS numbers are IEEE binary64 values, represented by [spec_float]. *)

From Stdlib Require Import ZArith String Ascii List Bool Lia.
From Stdlib Require Import Floats.SpecFloat.
From stdpp Require Import base gmap strings pretty.

Open Scope string_scope.
Open Scope list_scope.
Open Scope Z_scope.

(* ===================================================================== *)
(** ** JavaScript strings *)
(* ===================================================================== *)

Module JSString.

Definition is_upper (c : ascii) : bool :=
  let n := N_of_ascii c in (65 <=? n)%N && (n <=? 90)%N.

Definition is_lower (c : ascii) : bool :=
  let n := N_of_ascii c in (97 <=? n)%N && (n <=? 122)%N.

Definition lower_char (c : ascii) : ascii :=
  if is_upper c then ascii_of_N (N_of_ascii c + 32) else c.

Definition upper_char (c : ascii) : ascii :=
  if is_lower c then ascii_of_N (N_of_ascii c - 32) else c.

Fixpoint map_chars (f : ascii -> ascii) (s : string) : string :=
  match s with
  | EmptyString => EmptyString
  | String c r => String (f c) (map_chars f r)
  end.

(** [String.prototype.toLowerCase] and [toUpperCase]. *)
Definition toLowerCase (s : string) : string := map_chars lower_char s.
Definition toUpperCase (s : string) : string := map_chars upper_char s.

(** [hay.startsWith(needle)]. *)
Definition startsWith (hay needle : string) : bool := String.prefix needle hay.

(** [hay.includes(needle)]: [needle] occurs at some position of [hay]. *)
Fixpoint includes (hay needle : string) : bool :=
  String.prefix needle hay ||
  match hay with
  | EmptyString => false
  | String _ r => includes r needle
  end.

(** White space and line terminators of the ASCII range (tab, line feed,
    vertical tab, form feed, carriage return, space).  JavaScript also
    counts U+00A0, U+FEFF, U+2028, U+2029 and the other space separators,
    which lie outside ASCII text. *)
Definition is_space (c : ascii) : bool :=
  let n := N_of_ascii c in
  (n =? 32)%N || ((9 <=? n)%N && (n <=? 13)%N).

Fixpoint trimStart (s : string) : string :=
  match s with
  | String c r => if is_space c then trimStart r else s
  | EmptyString => EmptyString
  end.

(** Drops the trailing white space: a character is kept when something
    other than white space follows it or it is not white space itself. *)
Fixpoint trimEnd (s : string) : string :=
  match s with
  | EmptyString => EmptyString
  | String c r =>
      match trimEnd r with
      | EmptyString => if is_space c then EmptyString else String c EmptyString
      | r' => String c r'
      end
  end.

(** [String.prototype.trim]. *)
Definition trim (s : string) : string := trimEnd (trimStart s).

(** Truthiness of a string: the empty string is falsy. *)
Definition truthy (s : string) : bool :=
  match s with EmptyString => false | _ => true end.

End JSString.

(* ===================================================================== *)
(** ** JavaScript numbers and [parseFloat] *)
(* ===================================================================== *)

Module JSNumber.

(** A Number is a binary64 value: precision 53, [emax] 1024. *)
Definition number : Type := spec_float.

Definition prec : Z := 53.
Definition emax : Z := 1024.

Definition NaN : number := S754_nan.
Definition Infinity (neg : bool) : number := S754_infinity neg.

(** The Number value of the quotient [num / den] of two positive
    integers: round to nearest, ties to even, overflow to infinity. *)
Definition of_ratio (neg : bool) (num den : Z) : number :=
  let '(q, e, l) := SFdiv_core_binary prec emax num 0 den 0 in
  binary_round_aux prec emax neg q e l.

(** The Number value of the decimal [m * 10^e10], [m >= 0]. *)
Definition of_decimal (neg : bool) (m e10 : Z) : number :=
  if m =? 0 then S754_zero neg
  else if 0 <=? e10 then of_ratio neg (m * 10 ^ e10) 1
  else of_ratio neg m (10 ^ (- e10)).

(** An integer literal such as [39]. *)
Definition of_Z (z : Z) : number := binary_normalize prec emax z 0 false.

Definition isNaN (x : number) : bool :=
  match x with S754_nan => true | _ => false end.

(** The relational operators; every comparison with [NaN] is false. *)
Definition gt (x y : number) : bool := SFltb y x.
Definition lt (x y : number) : bool := SFltb x y.
Definition le (x y : number) : bool := SFleb x y.

(** *** The grammar [StrDecimalLiteral] *)

Definition digit_of (c : ascii) : option Z :=
  let n := N_of_ascii c in
  if (48 <=? n)%N && (n <=? 57)%N then Some (Z.of_N n - 48) else None.

(** Reads the longest run of decimal digits in front of [s]: the value
    of [acc] followed by the digits, how many were read, and the rest. *)
Fixpoint digits (acc : Z) (cnt : Z) (s : string) : Z * Z * string :=
  match s with
  | String c r =>
      match digit_of c with
      | Some d => digits (10 * acc + d) (cnt + 1) r
      | None => (acc, cnt, s)
      end
  | EmptyString => (acc, cnt, s)
  end.

(** [ExponentPart], when one is in front of [s]; otherwise 0: an [e]
    that no digit follows is not part of the literal. *)
Definition exponent (s : string) : Z :=
  match s with
  | String c r =>
      if Ascii.eqb c "e" || Ascii.eqb c "E" then
        let '(neg, r') :=
          match r with
          | String "+" r' => (false, r')
          | String "-" r' => (true, r')
          | _ => (false, r)
          end in
        let '(v, cnt, _) := digits 0 0 r' in
        if 0 <? cnt then (if neg then - v else v) else 0
      else 0
  | EmptyString => 0
  end.

(** [StrUnsignedDecimalLiteral]: the longest prefix of [s] that is one. *)
Definition unsigned_literal (neg : bool) (s : string) : number :=
  if String.prefix "Infinity" s then Infinity neg
  else
    let '(ip, n_ip, r1) := digits 0 0 s in
    if 0 <? n_ip then
      match r1 with
      | String "." r2 =>
          let '(m, n_fp, r3) := digits ip 0 r2 in
          of_decimal neg m (exponent r3 - n_fp)
      | _ => of_decimal neg ip (exponent r1)
      end
    else
      match s with
      | String "." r2 =>
          let '(m, n_fp, r3) := digits 0 0 r2 in
          if 0 <? n_fp then of_decimal neg m (exponent r3 - n_fp) else NaN
      | _ => NaN
      end.

(** The global [parseFloat]: leading white space is skipped, the longest
    prefix that is a decimal literal is read, and anything after it is
    ignored; without such a prefix the result is [NaN]. *)
Definition parseFloat (s : string) : number :=
  match JSString.trimStart s with
  | String "+" r => unsigned_literal false r
  | String "-" r => unsigned_literal true r
  | r => unsigned_literal false r
  end.

End JSNumber.

Import JSString JSNumber.

(* ===================================================================== *)
(** ** Data model *)
(* ===================================================================== *)

(** The [question] object attached to a bot message; the remote side may
    leave any field out. *)
Record Question := {
  q_type : option string;
  q_key : option string;
  q_question : option string;
  q_options : option (list string)
}.

(** The terminal analysis.  The scores of the local engine are the integer
    literals of the source. *)
Record Analysis := {
  risk_score : Z;
  risk_level : string;
  suspected_fever_type : string;
  recommendation : string
}.

Inductive Sender := bot | user.

Record Message := {
  m_id : string;
  m_text : string;
  m_sender : Sender;
  m_timestamp : Z;
  m_question : option Question;
  m_analysis : option Analysis
}.

(** The values stored in [sessionData]. *)
Inductive Value :=
| VBool (b : bool)
| VStr (s : string)
| VNum (n : number).

(** The React state of a chatbot component (the [useState] cells). *)
Record State := {
  messages : list Message;
  input : string;
  loading : bool;
  sessionId : option string;
  currentStep : string;
  sessionData : gmap string Value;
  completed : bool;
  error : option string
}.

(** The state of the first render. *)
Definition initialState : State := {|
  messages := [];
  input := "";
  loading := false;
  sessionId := None;
  currentStep := "start";
  sessionData := ∅;
  completed := false;
  error := None
|}.

(** What a handler does besides writing state.  [OnComplete a] stands for
    [if (onComplete) onComplete(a)]: the callback is invoked when the
    prop is supplied. *)
Inductive Effect :=
| PostStartSession
| PostMessage (session_id : option string) (message : string)
              (extra : option (string * gmap string Value))
| PostReport (session_id : option string)
             (session_data : option (gmap string Value)) (analysis : Analysis)
| OnComplete (analysis : Analysis)
| ConsoleWarn (what : string)
| ConsoleError (what : string).

(** The outcome of an awaited [fetch].  [Rejected]: the promise rejects
    (network error, timeout, abort).  [Response ok body]: a response
    arrived with [response.ok = ok]; [body = None] when reading it as the
    expected JSON object fails.  The components set no timeout of their
    own: a request that never settles has no outcome and leaves its
    handler suspended. *)
Inductive FetchResult (A : Type) :=
| Rejected
| Response (ok : bool) (body : option A).
Arguments Rejected {A}.
Arguments Response {A} ok body.

(** The body of the reply of [/api/chatbot/start-session]. *)
Record StartData := {
  sd_session_id : option string;
  sd_current_step : option string;
  sd_message : option string;
  sd_next_question : option Question;
  sd_question : option Question
}.

(** The body of the reply of [/api/chatbot/message]. *)
Record MessageData := {
  md_session_data : option (gmap string Value);
  md_message : option string;
  md_response : option string;
  md_next_question : option Question;
  md_question : option Question;
  md_analysis : option Analysis;
  md_completed : bool;
  md_next_step : option string
}.

(* ===================================================================== *)
(** ** State writes and effects *)
(* ===================================================================== *)

(** A handler body: it updates the pending state and extends the trace. *)
Definition Action : Type := State -> State * list Effect.

Definition skip : Action := fun s => (s, []).

Definition seq (a b : Action) : Action := fun s =>
  let '(s1, t1) := a s in
  let '(s2, t2) := b s1 in
  (s2, t1 ++ t2).

Declare Scope action_scope.
Delimit Scope action_scope with act.
Bind Scope action_scope with Action.
Notation "a >> b" := (seq a b) (at level 90, right associativity) : action_scope.

Definition emit (e : Effect) : Action := fun s => (s, [e]).

Definition setMessages (f : list Message -> list Message) : Action := fun s =>
  ({| messages := f (messages s); input := input s; loading := loading s;
      sessionId := sessionId s; currentStep := currentStep s;
      sessionData := sessionData s; completed := completed s;
      error := error s |}, []).

Definition setInput (v : string) : Action := fun s =>
  ({| messages := messages s; input := v; loading := loading s;
      sessionId := sessionId s; currentStep := currentStep s;
      sessionData := sessionData s; completed := completed s;
      error := error s |}, []).

Definition setLoading (v : bool) : Action := fun s =>
  ({| messages := messages s; input := input s; loading := v;
      sessionId := sessionId s; currentStep := currentStep s;
      sessionData := sessionData s; completed := completed s;
      error := error s |}, []).

Definition setSessionId (v : option string) : Action := fun s =>
  ({| messages := messages s; input := input s; loading := loading s;
      sessionId := v; currentStep := currentStep s;
      sessionData := sessionData s; completed := completed s;
      error := error s |}, []).

Definition setCurrentStep (v : string) : Action := fun s =>
  ({| messages := messages s; input := input s; loading := loading s;
      sessionId := sessionId s; currentStep := v;
      sessionData := sessionData s; completed := completed s;
      error := error s |}, []).

Definition setSessionData (f : gmap string Value -> gmap string Value) : Action :=
  fun s =>
  ({| messages := messages s; input := input s; loading := loading s;
      sessionId := sessionId s; currentStep := currentStep s;
      sessionData := f (sessionData s); completed := completed s;
      error := error s |}, []).

Definition setCompleted (v : bool) : Action := fun s =>
  ({| messages := messages s; input := input s; loading := loading s;
      sessionId := sessionId s; currentStep := currentStep s;
      sessionData := sessionData s; completed := v;
      error := error s |}, []).

Definition setError (v : option string) : Action := fun s =>
  ({| messages := messages s; input := input s; loading := loading s;
      sessionId := sessionId s; currentStep := currentStep s;
      sessionData := sessionData s; completed := completed s;
      error := v |}, []).

(** An event handler of the current render runs against the state it
    captured: closure and pending state start out equal. *)
Definition run (h : State -> Action) (s : State) : State * list Effect := h s s.

(** [a || d] on an optional string: the first truthy operand. *)
Definition or_else (a : option string) (d : string) : string :=
  match a with
  | Some v => if truthy v then v else d
  | None => d
  end.

(** Truthiness of an optional string ([undefined], [null] and the empty
    string are falsy). *)
Definition truthy_opt (a : option string) : bool :=
  match a with Some v => truthy v | None => false end.

(** Truthiness of an optional object. *)
Definition present {A : Type} (a : option A) : bool :=
  match a with Some _ => true | None => false end.

(** [Date.now().toString()]. *)
Definition toString (z : Z) : string := pretty z.

(* ===================================================================== *)
(** ** [patient-portal/src/components/Chatbot.jsx] *)
(* ===================================================================== *)

Module PatientPortal.

Local Open Scope action_scope.

Definition welcomeText : string :=
  "Hello! I'm here to help assess your symptoms. Do you currently have a fever?".

(** The question of the catalog's first step. *)
Definition hasFeverQuestion : Question := {|
  q_type := Some "yes_no";
  q_key := Some "has_fever";
  q_question := Some "Do you currently have a fever?";
  q_options := Some ["Yes"; "No"]
|}.

Definition welcomeMessage (now : Z) : Message := {|
  m_id := "1";
  m_text := welcomeText;
  m_sender := bot;
  m_timestamp := now;
  m_question := Some hasFeverQuestion;
  m_analysis := None
|}.

(** [a || b] on optional objects. *)
Definition or_question (a b : option Question) : option Question :=
  match a with Some _ => a | None => b end.

(** The local fallback of [startSession] (the statements after the
    inner [try]). *)
Definition startLocally (now : Z) : Action :=
  let localSessionId := String.append "local-" (toString now) in
  setSessionId (Some localSessionId) >>
  setCurrentStep "start" >>
  setMessages (fun _ => [welcomeMessage now]).

(** [startSession].  The inner [try] covers the [fetch] and the reading
    of the body; whatever is thrown there is logged as a warning and
    control falls through to [startLocally], as it does for a response
    that is not [ok].  Nothing outside the inner [try] can throw, so the
    outer [catch] is never entered; [finally] clears [loading]. *)
Definition startSession (now : Z) (r : FetchResult StartData) : Action :=
  setLoading true >>
  setError None >>
  emit PostStartSession >>
  match r with
  | Response true (Some data) =>
      setSessionId (sd_session_id data) >>
      setCurrentStep (or_else (sd_current_step data) "start") >>
      setMessages (fun _ =>
        [ {| m_id := "1";
             m_text :=
               or_else (sd_message data)
                 (or_else (sd_next_question data ≫= q_question) welcomeText);
             m_sender := bot;
             m_timestamp := now;
             m_question := or_question (sd_next_question data) (sd_question data);
             m_analysis := None |} ]) >>
      setLoading false >>
      setLoading false
  | Response true None | Rejected =>
      emit (ConsoleWarn "Backend not available, using local mode:") >>
      startLocally now >>
      setLoading false
  | Response false _ =>
      startLocally now >>
      setLoading false
  end.

Definition botMessage (now : Z) (text : string) (q : option Question)
    (a : option Analysis) : Message := {|
  m_id := toString (now + 1);
  m_text := text;
  m_sender := bot;
  m_timestamp := now;
  m_question := q;
  m_analysis := a
|}.

Definition pushMessage (m : Message) : Action :=
  setMessages (fun prev => prev ++ [m]).

(** The recommendation table of the [temperature] branch. *)
Definition temperatureRecommendation (riskLevel : string) : string :=
  if String.eqb riskLevel "high" then
    "Please consult a doctor immediately. Your temperature is high and requires medical attention."
  else if String.eqb riskLevel "medium" then
    "Monitor your symptoms and consider consulting a doctor if they worsen."
  else "Rest and stay hydrated. Monitor your symptoms.".

(** The [analysis] object of the [temperature] branch, with its
    [riskScore] and [riskLevel]. *)
Definition temperatureAnalysis (temp : number) : Analysis :=
  let riskScore := if gt temp (of_Z 39) then 75 else if gt temp (of_Z 38) then 50 else 30 in
  let riskLevel := if 70 <? riskScore then "high" else if 50 <? riskScore then "medium" else "low" in
  {| risk_score := riskScore;
     risk_level := riskLevel;
     suspected_fever_type := "Viral Fever";
     recommendation := temperatureRecommendation riskLevel |}.

(** The [analysis] literals of the two [other_symptoms] branches. *)
Definition generalSymptomsAnalysis : Analysis := {|
  risk_score := 40;
  risk_level := "low";
  suspected_fever_type := "General Symptoms";
  recommendation :=
    "Rest and stay hydrated. If symptoms persist, consider consulting a doctor."
|}.

Definition noFeverAnalysis : Analysis := {|
  risk_score := 20;
  risk_level := "low";
  suspected_fever_type := "No Fever";
  recommendation :=
    "You appear to be in good health. Continue monitoring your symptoms."
|}.

(** [handleLocalResponse]: the rule-based engine.  It reads
    [currentStep] and [sessionData] from the closure [c]. *)
Definition handleLocalResponse (c : State) (text : string) (now : Z) : Action :=
  let lowerText := toLowerCase text in
  if String.eqb (currentStep c) "start" || String.eqb (currentStep c) "has_fever" then
    if includes lowerText "yes" || includes lowerText "yep" || String.eqb lowerText "y" then
      setSessionData (fun _ => <["has_fever" := VBool true]> (sessionData c)) >>
      setCurrentStep "fever_duration" >>
      pushMessage (botMessage now "How long have you had the fever?"
        (Some {| q_type := Some "choice";
                 q_key := Some "fever_duration";
                 q_question := None;
                 q_options := Some ["Less than 1 day"; "1-3 days"; "4-7 days";
                                    "More than 7 days"] |})
        None)
    else if includes lowerText "no" || includes lowerText "nope" || String.eqb lowerText "n" then
      setSessionData (fun _ => <["has_fever" := VBool false]> (sessionData c)) >>
      setCurrentStep "other_symptoms" >>
      pushMessage (botMessage now
        "Do you have any other symptoms like headache, body ache, or fatigue?"
        (Some {| q_type := Some "yes_no";
                 q_key := Some "other_symptoms";
                 q_question := None;
                 q_options := None |})
        None)
    else
      pushMessage (botMessage now "Please answer with Yes or No." None None)
  else if String.eqb (currentStep c) "fever_duration" then
    setSessionData (fun _ => <["fever_duration" := VStr text]> (sessionData c)) >>
    setCurrentStep "temperature" >>
    pushMessage (botMessage now "What is your current body temperature? (in Celsius)"
      None None)
  else if String.eqb (currentStep c) "temperature" then
    let temp := parseFloat text in
    if negb (isNaN temp) then
      let analysis := temperatureAnalysis temp in
      setSessionData (fun _ => <["temperature" := VNum temp]> (sessionData c)) >>
      setCurrentStep "complete" >>
      setCompleted true >>
      pushMessage (botMessage now
        (String.append "Based on your symptoms, your risk level is "
          (String.append (toUpperCase (risk_level analysis))
            (String.append ". " (recommendation analysis))))
        None (Some analysis)) >>
      emit (OnComplete analysis)
    else
      pushMessage (botMessage now "Please enter a valid temperature number." None None)
  else if String.eqb (currentStep c) "other_symptoms" then
    if includes lowerText "yes" then
      let analysis := generalSymptomsAnalysis in
      setSessionData (fun _ => <["other_symptoms" := VBool true]> (sessionData c)) >>
      setCurrentStep "complete" >>
      setCompleted true >>
      pushMessage (botMessage now
        (String.append "Thank you for the information. " (recommendation analysis))
        None (Some analysis)) >>
      emit (OnComplete analysis)
    else
      let analysis := noFeverAnalysis in
      setSessionData (fun _ => <["other_symptoms" := VBool false]> (sessionData c)) >>
      setCurrentStep "complete" >>
      setCompleted true >>
      pushMessage (botMessage now (recommendation analysis) None (Some analysis)) >>
      emit (OnComplete analysis)
  else skip.

(** [sessionId && sessionId.startsWith('local-')]. *)
Definition isLocalMode (c : State) : bool :=
  match sessionId c with
  | Some sid => truthy sid && startsWith sid "local-"
  | None => false
  end.

(** [sendMessage].  [r] is the outcome of the [message] request and
    [rep] that of the [submit-report] request, when they are made. *)
Definition sendMessage (c : State) (text : string) (now : Z)
    (r : FetchResult MessageData) (rep : FetchResult unit) : Action :=
  if negb (truthy (trim text)) || loading c || completed c then skip
  else
    pushMessage {| m_id := toString now; m_text := trim text; m_sender := user;
                   m_timestamp := now; m_question := None; m_analysis := None |} >>
    setInput "" >>
    setLoading true >>
    setError None >>
    if isLocalMode c then
      handleLocalResponse c (trim text) now >>
      setLoading false
    else
      emit (PostMessage (sessionId c) (trim text) None) >>
      match r with
      | Response true (Some data) =>
          match md_session_data data with
          | Some d => setSessionData (fun prev => d ∪ prev)
          | None => skip
          end >>
          pushMessage (botMessage now
            (or_else (md_message data)
               (or_else (md_response data) "Thank you for your response."))
            (or_question (md_next_question data) (md_question data))
            (md_analysis data)) >>
          (if md_completed data || present (md_analysis data) then
             setCompleted true >>
             match md_analysis data with
             | Some a =>
                 emit (OnComplete a) >>
                 if truthy_opt (sessionId c) then
                   emit (PostReport (sessionId c) None a) >>
                   match rep with
                   | Rejected => emit (ConsoleError "Error submitting report:")
                   | Response _ _ => skip
                   end
                 else skip
             | None => skip
             end
           else if truthy_opt (md_next_step data) then
             setCurrentStep (default "" (md_next_step data))
           else skip) >>
          setLoading false
      | Response true None | Rejected =>
          emit (ConsoleWarn "Backend not available, using local mode:") >>
          handleLocalResponse c (trim text) now >>
          setLoading false
      | Response false _ =>
          handleLocalResponse c (trim text) now >>
          setLoading false
      end.

(** [handleRestart]. *)
Definition handleRestart (now : Z) (r : FetchResult StartData) : Action :=
  setMessages (fun _ => []) >>
  setSessionData (fun _ => ∅) >>
  setCompleted false >>
  setCurrentStep "start" >>
  setError None >>
  startSession now r.


(** [handleSubmit], after [preventDefault]: the text is the [input] cell
    of the closure. *)
Definition handleSubmit (c : State) (now : Z)
    (r : FetchResult MessageData) (rep : FetchResult unit) : Action :=
  if truthy (trim (input c)) then sendMessage c (input c) now r rep else skip.


(** The variant of the risk badge the render puts on an analysis: chosen
    by [risk_level]. *)
Definition badgeVariant (a : Analysis) : string :=
  if String.eqb (risk_level a) "high" then "destructive"
  else if String.eqb (risk_level a) "medium" then "default"
  else "secondary".

(** The banner the render shows once the session is completed. *)
Definition completionBanner (s : State) : option string :=
  if completed s then Some "Assessment complete. Report has been saved."
  else None.

(** *** The handlers cut at their awaits *)

(** [startSession] up to its request. *)
Definition startSessionBegin : Action :=
  setLoading true >>
  setError None >>
  emit PostStartSession.

(** [startSession] from the moment the request has settled. *)
Definition startSessionResume (now : Z) (r : FetchResult StartData) : Action :=
  match r with
  | Response true (Some data) =>
      setSessionId (sd_session_id data) >>
      setCurrentStep (or_else (sd_current_step data) "start") >>
      setMessages (fun _ =>
        [ {| m_id := "1";
             m_text :=
               or_else (sd_message data)
                 (or_else (sd_next_question data ≫= q_question) welcomeText);
             m_sender := bot;
             m_timestamp := now;
             m_question := or_question (sd_next_question data) (sd_question data);
             m_analysis := None |} ]) >>
      setLoading false >>
      setLoading false
  | Response true None | Rejected =>
      emit (ConsoleWarn "Backend not available, using local mode:") >>
      startLocally now >>
      setLoading false
  | Response false _ =>
      startLocally now >>
      setLoading false
  end.

(** [handleRestart] up to the request of its [startSession]. *)
Definition handleRestartBegin : Action :=
  setMessages (fun _ => []) >>
  setSessionData (fun _ => ∅) >>
  setCompleted false >>
  setCurrentStep "start" >>
  setError None >>
  startSessionBegin.

(** [sendMessage] up to its message request; in local mode, and when the
    submission is dropped, that is all of it. *)
Definition sendMessageBegin (c : State) (text : string) (now : Z) : Action :=
  if negb (truthy (trim text)) || loading c || completed c then skip
  else
    pushMessage {| m_id := toString now; m_text := trim text; m_sender := user;
                   m_timestamp := now; m_question := None; m_analysis := None |} >>
    setInput "" >>
    setLoading true >>
    setError None >>
    if isLocalMode c then
      handleLocalResponse c (trim text) now >>
      setLoading false
    else
      emit (PostMessage (sessionId c) (trim text) None).

(** Whether [sendMessage] makes the message request. *)
Definition awaitsReply (c : State) (text : string) : bool :=
  negb (negb (truthy (trim text)) || loading c || completed c) &&
  negb (isLocalMode c).

(** Whether [sendMessage] makes the report request once the reply is in. *)
Definition awaitsReport (c : State) (r : FetchResult MessageData) : bool :=
  match r with
  | Response true (Some data) => present (md_analysis data) && truthy_opt (sessionId c)
  | _ => false
  end.

(** [sendMessage] from the moment the message request has settled, up to
    its report request when it makes one and to its end otherwise. *)
Definition sendMessageReply (c : State) (text : string) (now : Z)
    (r : FetchResult MessageData) : Action :=
  match r with
  | Response true (Some data) =>
      match md_session_data data with
      | Some d => setSessionData (fun prev => d ∪ prev)
      | None => skip
      end >>
      pushMessage (botMessage now
        (or_else (md_message data)
           (or_else (md_response data) "Thank you for your response."))
        (or_question (md_next_question data) (md_question data))
        (md_analysis data)) >>
      if md_completed data || present (md_analysis data) then
        setCompleted true >>
        match md_analysis data with
        | Some a =>
            emit (OnComplete a) >>
            if truthy_opt (sessionId c) then
              emit (PostReport (sessionId c) None a)
            else setLoading false
        | None => setLoading false
        end
      else
        (if truthy_opt (md_next_step data) then
           setCurrentStep (default "" (md_next_step data))
         else skip) >>
        setLoading false
  | Response true None | Rejected =>
      emit (ConsoleWarn "Backend not available, using local mode:") >>
      handleLocalResponse c (trim text) now >>
      setLoading false
  | Response false _ =>
      handleLocalResponse c (trim text) now >>
      setLoading false
  end.

(** [sendMessage] from the moment the report request has settled. *)
Definition sendMessageReport (rep : FetchResult unit) : Action :=
  match rep with
  | Rejected => emit (ConsoleError "Error submitting report:")
  | Response _ _ => skip
  end >>
  setLoading false.

(** What is left of [sendMessage] after [sendMessageBegin], in order. *)
Definition sendMessageRest (c : State) (text : string) (now : Z)
    (r : FetchResult MessageData) (rep : FetchResult unit) : list Action :=
  if awaitsReply c text then
    sendMessageReply c text now r ::
    (if awaitsReport c r then [sendMessageReport rep] else [])
  else [].

End PatientPortal.

(* ===================================================================== *)
(** ** The frontend copy, [Chatbot.tsx] *)
(* ===================================================================== *)

Module Frontend.

Local Open Scope action_scope.

(** [addMessage]: the id is [Date.now().toString()].  A text that the
    reply leaves out is shown as the empty string. *)
Definition addMessage (now : Z) (text : option string) (sender : Sender)
    (q : option Question) (a : option Analysis) : Action :=
  setMessages (fun prev => prev ++
    [ {| m_id := toString now; m_text := default "" text; m_sender := sender;
         m_timestamp := now; m_question := q; m_analysis := a |} ]).

(** [startSession]: a rejected [fetch], a response that is not [ok] and
    an unreadable body all end in the [catch], which sets the error
    banner; there is no local mode in this copy. *)
Definition startSession (now : Z) (r : FetchResult StartData) : Action :=
  setLoading true >>
  setError None >>
  emit PostStartSession >>
  match r with
  | Response true (Some data) =>
      setSessionId (sd_session_id data) >>
      match sd_next_question data with
      | Some q =>
          addMessage now (q_question q) bot (Some q) None >>
          setCurrentStep (or_else (q_key q) "start")
      | None => skip
      end
  | _ =>
      emit (ConsoleError "Error starting session:") >>
      setError (Some "Failed to start chatbot session")
  end >>
  setLoading false.

(** [handleSend]: the answer is the [input] cell of the closure. *)
Definition handleSend (c : State) (now : Z)
    (r : FetchResult MessageData) (rep : FetchResult unit) : Action :=
  if negb (truthy (trim (input c))) || loading c || completed c
     || negb (truthy_opt (sessionId c))
  then skip
  else
    let userMessage := trim (input c) in
    setInput "" >>
    addMessage now (Some userMessage) user None None >>
    setLoading true >>
    setError None >>
    emit (PostMessage (sessionId c) userMessage
            (Some (currentStep c, sessionData c))) >>
    match r with
    | Response true (Some response) =>
        match md_session_data response with
        | Some d => setSessionData (fun _ => d)
        | None => skip
        end >>
        match md_next_question response with
        | Some q =>
            setCurrentStep (or_else (q_key q) "") >>
            addMessage now (md_message response) bot (Some q) None
        | None =>
            match md_completed response, md_analysis response with
            | true, Some a =>
                setCompleted true >>
                addMessage now (md_message response) bot None (Some a) >>
                emit (PostReport (sessionId c) (Some (sessionData c)) a) >>
                match rep with
                | Rejected => emit (ConsoleError "Error submitting report:")
                | Response _ _ => skip
                end >>
                emit (OnComplete a)
            | _, _ => skip
            end
        end
    | _ =>
        emit (ConsoleError "Error sending message:") >>
        setError (Some "Failed to send message. Please try again.")
    end >>
    setLoading false.

(** [handleChoice]: the choice is written to the input cell and, 100 ms
    later, the [handleSend] of the same render runs, which still reads the
    [input] that render captured.  No other event is taken to occur in
    between. *)
Definition handleChoice (c : State) (choice : string) (now : Z)
    (r : FetchResult MessageData) (rep : FetchResult unit) : Action :=
  setInput choice >>
  handleSend c now r rep.

(** The array [handleMultiChoice] computes from the current selection:
    [option] is taken out when it is in, and put at the end when it is
    not. *)
Definition toggleOption (current : list string) (option : string) : list string :=
  if existsb (String.eqb option) current
  then filter (fun o => negb (String.eqb o option)) current
  else current ++ [option].

(** [handleMultiChoice], on the array-valued entries of [sessionData]
    (the selections of the multiple-choice steps, by step); a missing
    entry counts as the empty selection. *)
Definition handleMultiChoice (currentStep : string)
    (selections : gmap string (list string)) (option : string)
    : gmap string (list string) :=
  let current := default [] (selections !! currentStep) in
  <[currentStep := toggleOption current option]> selections.

(** The variant of the score badge of [renderAnalysis]: chosen by
    [risk_score]. *)
Definition badgeVariant (a : Analysis) : string :=
  if 70 <? risk_score a then "destructive"
  else if 50 <? risk_score a then "default"
  else "secondary".

End Frontend.


(* ===================================================================== *)
(** ** Sessions of the patient portal *)
(* ===================================================================== *)

Import PatientPortal.

(** The outcomes of a request on which the handlers do not take the
    remote branch: a rejected promise (transport error, timeout),
    a status that is not a success, a body that cannot be read. *)
Definition failed {A : Type} (r : FetchResult A) : bool :=
  match r with
  | Response true (Some _) => false
  | _ => true
  end.

(** The states of a session that runs on the local engine: the component
    mounts (or is restarted) while the backend cannot be reached and the
    user submits answers. *)
Inductive reachable : State -> Prop :=
| reach_mount (now : Z) (r : FetchResult StartData) :
    failed r = true ->
    reachable (fst (startSession now r initialState))
| reach_send (s : State) (text : string) (now : Z)
    (r : FetchResult MessageData) (rep : FetchResult unit) :
    reachable s ->
    reachable (fst (run (fun c => sendMessage c text now r rep) s))
| reach_restart (s : State) (now : Z) (r : FetchResult StartData) :
    reachable s ->
    failed r = true ->
    reachable (fst (handleRestart now r s)).

(** The analysis a completed state shows: the one attached to its last
    message. *)
Definition shownAnalysis (s : State) : option Analysis :=
  last (messages s) ≫= m_analysis.

(** [a] is the analysis of a reachable terminal state. *)
Definition terminalAnalysis (a : Analysis) : Prop :=
  exists s, reachable s /\ completed s = true /\ shownAnalysis s = Some a.

(** The three shapes of analysis the local engine builds. *)
Definition produced (a : Analysis) : Prop :=
  (exists t, isNaN t = false /\ a = temperatureAnalysis t) \/
  a = generalSymptomsAnalysis \/
  a = noFeverAnalysis.


(** One submission: the text, the clock and what the two requests would
    answer. *)
Record Submission := {
  sub_text : string;
  sub_now : Z;
  sub_reply : FetchResult MessageData;
  sub_report : FetchResult unit
}.

(** A sequence of submissions, each handled by the render that follows
    the previous one. *)
Fixpoint sendAll (l : list Submission) (s : State) : State :=
  match l with
  | [] => s
  | x :: l' =>
      sendAll l'
        (fst (run (fun c => sendMessage c (sub_text x) (sub_now x)
                              (sub_reply x) (sub_report x)) s))
  end.


Definition isReport (e : Effect) : bool :=
  match e with PostReport _ _ _ => true | _ => false end.

(** *** Concrete sessions *)

(** A local session waiting at [step]. *)
Definition localAt (step : string) : State := {|
  messages := [];
  input := "";
  loading := false;
  sessionId := Some "local-1000";
  currentStep := step;
  sessionData := ∅;
  completed := false;
  error := None
|}.

(** A remote session waiting at [step]. *)
Definition remoteAt (step : string) : State := {|
  messages := [];
  input := "";
  loading := false;
  sessionId := Some "c0ffee";
  currentStep := step;
  sessionData := ∅;
  completed := false;
  error := None
|}.


(** The local session right after a mount without backend. *)
Definition mounted : State := fst (startSession 1000 Rejected initialState).

Definition answer (text : string) (now : Z) : Submission :=
  {| sub_text := text; sub_now := now; sub_reply := Rejected; sub_report := Rejected |}.

(** Three local conversations run to completion. *)
Definition feverRun (temperature : string) : State :=
  sendAll [answer "Yes" 2000; answer "3-4 days" 3000; answer temperature 4000] mounted.

Definition otherSymptomsRun : State :=
  sendAll [answer "No" 2000; answer "Yes" 3000] mounted.

Definition noFeverRun : State :=
  sendAll [answer "No" 2000; answer "No" 3000] mounted.

(** A reply of the backend that completes the assessment. *)
Definition completingReply (a : Analysis) : MessageData := {|
  md_session_data := None;
  md_message := Some "Assessment complete.";
  md_response := None;
  md_next_question := None;
  md_question := None;
  md_analysis := Some a;
  md_completed := true;
  md_next_step := None
|}.


(** *** Invariants of local sessions *)




(** The message [sendMessage] adds for the user's text. *)
Definition userMessage (text : string) (now : Z) : Message :=
  {| m_id := toString now; m_text := trim text; m_sender := user;
     m_timestamp := now; m_question := None; m_analysis := None |}.

(** Every character of the text is white space. *)
Definition blank (text : string) : Prop :=
  Forall (fun ch => is_space ch = true) (list_ascii_of_string text).

(** A decimal digit, and a string of decimal digits. *)
Definition isDigit (ch : ascii) : bool :=
  match digit_of ch with Some _ => true | None => false end.

Definition allDigits (text : string) : Prop :=
  Forall (fun ch => isDigit ch = true) (list_ascii_of_string text).

(** A character at which a decimal literal ends: not a digit, not the
    point, not an exponent indicator. *)
Definition endsNumber (ch : ascii) : bool :=
  negb (isDigit ch) && negb (Ascii.eqb ch ".") &&
  negb (Ascii.eqb ch "e") && negb (Ascii.eqb ch "E").

(** Every character of the text is an ASCII character. *)
Definition asciiText (text : string) : Prop :=
  Forall (fun ch => (N_of_ascii ch < 128)%N) (list_ascii_of_string text).

(** *** Sessions of the patient portal, whatever the backend does *)

(** The parts of a handler run one after the other. *)
Definition runAll (parts : list Action) : Action := foldr seq skip parts.

(** The patient portal with its suspended handlers.  [portalRuns s P]:
    the state [s] can be reached with the handlers of [P] suspended at a
    request, each given by the parts it has still to run.  A new event
    (mount, typing, a submission, a restart) may arrive and a suspended
    handler may resume in any order; the handler of an event closes over
    the state at the event.  Events are not restricted to the controls
    the render enables, so the relation covers at least the runs of the
    component. *)
Inductive portalRuns : State -> list (list Action) -> Prop :=
| runs_mount (now : Z) (r : FetchResult StartData) :
    portalRuns (fst (startSessionBegin initialState)) [[startSessionResume now r]]
| runs_type (s : State) (P : list (list Action)) (v : string) :
    portalRuns s P ->
    portalRuns (fst (setInput v s)) P
| runs_send (s : State) (P : list (list Action)) (text : string) (now : Z)
    (r : FetchResult MessageData) (rep : FetchResult unit) :
    portalRuns s P ->
    portalRuns (fst (sendMessageBegin s text now s))
               (sendMessageRest s text now r rep :: P)
| runs_restart (s : State) (P : list (list Action)) (now : Z)
    (r : FetchResult StartData) :
    portalRuns s P ->
    portalRuns (fst (handleRestartBegin s)) ([startSessionResume now r] :: P)
| runs_resume (s : State) (P1 P2 : list (list Action)) (a : Action)
    (k : list Action) :
    portalRuns s (P1 ++ (a :: k) :: P2) ->
    portalRuns (fst (a s)) (P1 ++ k :: P2).

(** A handler part that sets no error. *)
Definition errorFree (a : Action) : Prop :=
  forall s, error s = None -> error (fst (a s)) = None.


(** A reply of the backend that opens a remote session. *)
Definition remoteStart : StartData := {|
  sd_session_id := Some "c0ffee";
  sd_current_step := None;
  sd_message := None;
  sd_next_question := None;
  sd_question := None
|}.

(** The remote session right after a mount with the backend up. *)
Definition remoteMounted : State :=
  fst (startSession 1000 (Response true (Some remoteStart)) initialState).

(** A remote session with text typed into the input box. *)
Definition remoteTyped (typed : string) : State := {|
  messages := [];
  input := typed;
  loading := false;
  sessionId := Some "c0ffee";
  currentStep := "has_fever";
  sessionData := ∅;
  completed := false;
  error := None
|}.

(** A reply of the backend that asks the next question. *)
Definition askingReply (q : Question) : MessageData := {|
  md_session_data := None;
  md_message := Some "How long have you had the fever?";
  md_response := None;
  md_next_question := Some q;
  md_question := None;
  md_analysis := None;
  md_completed := false;
  md_next_step := Some "fever_duration"
|}.

Arguments parseFloat : simpl never.
Arguments toString : simpl never.
Arguments toLowerCase : simpl never.

(* ===================================================================== *)
(** ** Properties *)
(* ===================================================================== *)

(** *** Order of Number values *)

Lemma SFcompare_antisym (x y : number) :
  SFcompare y x = option_map CompOpp (SFcompare x y).
Proof.
  destruct x as [sx|sx| |sx mx ex], y as [sy|sy| |sy my ey]; simpl;
    try reflexivity; try (destruct sx; reflexivity); try (destruct sy; reflexivity);
    try (destruct sx, sy; reflexivity).
  f_equal.
  destruct sx, sy; try reflexivity;
    rewrite (Z.compare_antisym ex ey); destruct (ex ?= ey); simpl; try reflexivity;
    rewrite Pos.compare_cont_antisym; simpl; try reflexivity.
  now rewrite CompOpp_involutive.
Qed.

Lemma SFcompare_total (x y : number) :
  isNaN x = false -> isNaN y = false -> exists c, SFcompare x y = Some c.
Proof. destruct x, y; simpl; intros; try discriminate; eauto. Qed.

(** On numbers other than [NaN], [x > y] is the negation of [x <= y]. *)
Lemma gt_negb_le (x y : number) :
  isNaN x = false -> isNaN y = false -> gt x y = negb (le x y).
Proof.
  intros Hx Hy. unfold gt, le, SFltb, SFleb.
  rewrite (SFcompare_antisym x y).
  destruct (SFcompare_total x y Hx Hy) as [c ->]. now destruct c.
Qed.

(** Above 39 is above 38. *)
Lemma gt_39_38 (t : number) : gt t (of_Z 39) = true -> gt t (of_Z 38) = true.
Proof.
  unfold gt, SFltb.
  change (of_Z 39) with (S754_finite false 5488762045857792 (-47)).
  change (of_Z 38) with (S754_finite false 5348024557502464 (-47)).
  destruct t as [s|s| |s m e]; cbn [SFcompare].
  all: try (destruct s; intros; (discriminate || reflexivity)).
  - intros H; exact H.
  - destruct s; [discriminate|].
    destruct (-47 ?= e); try discriminate; try reflexivity.
    change (PosDef.Pos.compare_cont Eq 5488762045857792 m)
      with (Pos.compare 5488762045857792 m).
    change (PosDef.Pos.compare_cont Eq 5348024557502464 m)
      with (Pos.compare 5348024557502464 m).
    destruct (Pos.compare_spec 5488762045857792 m) as [E|L|G]; try discriminate.
    intros _.
    destruct (Pos.compare_spec 5348024557502464 m) as [E'|L'|G']; try reflexivity.
    + exfalso. subst m. vm_compute in L. discriminate L.
    + exfalso. pose proof (Pos.lt_trans _ _ _ L G') as C.
      vm_compute in C. discriminate C.
Qed.

(** The score of the temperature rule, by cases on the reading. *)
Lemma temperature_score_cases (t : number) :
  isNaN t = false ->
  (gt t (of_Z 39) = true -> risk_score (temperatureAnalysis t) = 75) /\
  (gt t (of_Z 38) = true -> le t (of_Z 39) = true ->
     risk_score (temperatureAnalysis t) = 50) /\
  (le t (of_Z 38) = true -> risk_score (temperatureAnalysis t) = 30) /\
  (gt t (of_Z 39) = true \/
   (gt t (of_Z 38) = true /\ le t (of_Z 39) = true) \/
   le t (of_Z 38) = true).
Proof.
  intros Hn.
  pose proof (gt_negb_le t (of_Z 39) Hn eq_refl) as H39.
  pose proof (gt_negb_le t (of_Z 38) Hn eq_refl) as H38.
  pose proof (gt_39_38 t) as Hmono.
  unfold temperatureAnalysis; cbn [risk_score].
  destruct (gt t (of_Z 39)) eqn:G39, (gt t (of_Z 38)) eqn:G38,
           (le t (of_Z 39)) eqn:L39, (le t (of_Z 38)) eqn:L38;
    simpl in H39, H38; try discriminate;
    try (specialize (Hmono eq_refl); discriminate);
    repeat split; intros; try discriminate; try reflexivity; auto.
Qed.

(** *** The local engine, step by step *)

Lemma last_pushed (l : list Message) (m : Message) : last (l ++ [m]) = Some m.
Proof. apply last_snoc. Qed.

(** C2.  At step [temperature], an answer that [parseFloat] reads as a
    number [t] is scored 75 when [t > 39], 50 when [38 < t <= 39] and 30
    when [t <= 38] (one of the three always applies; 39 itself scores 50
    and 38 itself scores 30).  The reading is recorded, the session is
    marked completed at step [complete], and the analysis is attached to
    the bot's reply and handed to [onComplete]. *)
Theorem temperature_scoring (c s : State) (text : string) (now : Z) (t : number) :
  currentStep c = "temperature" ->
  parseFloat text = t ->
  isNaN t = false ->
  let r := handleLocalResponse c text now s in
  exists a : Analysis,
    (gt t (of_Z 39) = true -> risk_score a = 75) /\
    (gt t (of_Z 38) = true -> le t (of_Z 39) = true -> risk_score a = 50) /\
    (le t (of_Z 38) = true -> risk_score a = 30) /\
    (gt t (of_Z 39) = true \/
     (gt t (of_Z 38) = true /\ le t (of_Z 39) = true) \/
     le t (of_Z 38) = true) /\
    (t = of_Z 39 -> risk_score a = 50) /\
    (t = of_Z 38 -> risk_score a = 30) /\
    completed (fst r) = true /\
    currentStep (fst r) = "complete" /\
    sessionData (fst r) = <["temperature" := VNum t]> (sessionData c) /\
    (exists m, messages (fst r) = messages s ++ [m] /\
               m_sender m = bot /\ m_analysis m = Some a) /\
    snd r = [OnComplete a].
Proof.
  intros Hstep Ht Hn r. subst r.
  unfold handleLocalResponse. rewrite Hstep, Ht, Hn. simpl.
  exists (temperatureAnalysis t).
  destruct (temperature_score_cases t Hn) as (H75 & H50 & H30 & Hcover).
  repeat split; auto.
  - intros ->. reflexivity.
  - intros ->. reflexivity.
  - eexists. repeat split.
Qed.

Lemma temperature_scoring_witness :
  currentStep (localAt "temperature") = "temperature" /\
  parseFloat "39.0" = of_Z 39 /\
  isNaN (of_Z 39) = false /\
  exists a, risk_score a = 50 /\
    snd (handleLocalResponse (localAt "temperature") "39.0" 4000
           (localAt "temperature")) = [OnComplete a].
Proof.
  split; [reflexivity|]. split; [reflexivity|]. split; [reflexivity|].
  destruct (temperature_scoring (localAt "temperature") (localAt "temperature")
              "39.0" 4000 (of_Z 39) eq_refl eq_refl eq_refl)
    as (a & _ & _ & _ & _ & H39 & _ & _ & _ & _ & _ & Htr).
  exists a. split; [exact (H39 eq_refl) | exact Htr].
Defined.

(** C6.  At step [temperature], an answer that [parseFloat] does not read
    as a number only adds the re-prompt: the step, the answers and the
    completion flag stay as they are, the reply carries no analysis and
    [onComplete] is not called.  The engine is a total function, so
    nothing is thrown. *)
Theorem temperature_invalid_reprompts (c s : State) (text : string) (now : Z) :
  currentStep c = "temperature" ->
  isNaN (parseFloat text) = true ->
  let r := handleLocalResponse c text now s in
  r = pushMessage
        (botMessage now "Please enter a valid temperature number." None None) s /\
  currentStep (fst r) = currentStep s /\
  currentStep (fst (run (fun c' => handleLocalResponse c' text now) c)) = "temperature" /\
  sessionData (fst r) = sessionData s /\
  completed (fst r) = completed s /\
  (exists m, messages (fst r) = messages s ++ [m] /\
             m_text m = "Please enter a valid temperature number." /\
             m_analysis m = None) /\
  snd r = [].
Proof.
  intros Hstep Hnan r. subst r. unfold run.
  unfold handleLocalResponse. rewrite Hstep, Hnan. simpl.
  repeat split; auto.
  eexists. repeat split.
Qed.

Lemma temperature_invalid_reprompts_witness :
  currentStep (localAt "temperature") = "temperature" /\
  isNaN (parseFloat "very hot") = true /\
  fst (handleLocalResponse (localAt "temperature") "very hot" 4000
         (localAt "temperature")) =
  {| messages :=
       [botMessage 4000 "Please enter a valid temperature number." None None];
     input := ""; loading := false; sessionId := Some "local-1000";
     currentStep := "temperature"; sessionData := ∅; completed := false;
     error := None |}.
Proof.
  split; [reflexivity|]. split; [reflexivity|].
  destruct (temperature_invalid_reprompts (localAt "temperature")
              (localAt "temperature") "very hot" 4000 eq_refl eq_refl)
    as (H & _).
  rewrite H. reflexivity.
Defined.

(** C10.  At step [other_symptoms], an answer whose lower-cased text does
    not contain [yes] is taken as a negative one: [other_symptoms = false]
    is recorded and the session completes with score 20, level [low] and
    type [No Fever].  Whatever the answer, the step completes the session:
    it never re-prompts. *)
Theorem other_symptoms_default_negative (c s : State) (text : string) (now : Z) :
  currentStep c = "other_symptoms" ->
  let r := handleLocalResponse c text now s in
  (includes (toLowerCase text) "yes" = false ->
     sessionData (fst r) = <["other_symptoms" := VBool false]> (sessionData c) /\
     (exists m, messages (fst r) = messages s ++ [m] /\
                m_analysis m = Some noFeverAnalysis) /\
     snd r = [OnComplete noFeverAnalysis] /\
     risk_score noFeverAnalysis = 20 /\
     risk_level noFeverAnalysis = "low" /\
     suspected_fever_type noFeverAnalysis = "No Fever") /\
  completed (fst r) = true /\
  currentStep (fst r) = "complete" /\
  (exists a, snd r = [OnComplete a]).
Proof.
  intros Hstep r. subst r.
  unfold handleLocalResponse. rewrite Hstep. simpl.
  destruct (includes (toLowerCase text) "yes"); simpl.
  - split; [discriminate|]. repeat split; eauto.
  - repeat split; eauto.
Qed.

Lemma other_symptoms_default_negative_witness :
  currentStep (localAt "other_symptoms") = "other_symptoms" /\
  includes (toLowerCase "maybe") "yes" = false /\
  snd (handleLocalResponse (localAt "other_symptoms") "maybe" 3000
         (localAt "other_symptoms")) = [OnComplete noFeverAnalysis] /\
  completed (fst (handleLocalResponse (localAt "other_symptoms") "maybe" 3000
         (localAt "other_symptoms"))) = true.
Proof.
  split; [reflexivity|]. split; [reflexivity|].
  destruct (other_symptoms_default_negative (localAt "other_symptoms")
              (localAt "other_symptoms") "maybe" 3000 eq_refl)
    as (Hneg & Hc & _).
  destruct (Hneg eq_refl) as (_ & _ & Htr & _).
  split; [exact Htr | exact Hc].
Defined.

(** C5, as stated, fails: [maybe] contains [y], yet the engine does not
    take it for an affirmative answer; it stays at [start] and records
    nothing. *)
Lemma start_letter_substring_counterexample :
  includes (toLowerCase "maybe") "y" = true /\
  currentStep (fst (handleLocalResponse (localAt "start") "maybe" 2000
                      (localAt "start"))) = "start" /\
  sessionData (fst (handleLocalResponse (localAt "start") "maybe" 2000
                      (localAt "start"))) !! "has_fever" = None.
Proof. repeat split. Qed.

(** C5, amended.  At step [start] the lower-cased answer is affirmative
    exactly when it contains [yes] or [yep] or is the single letter [y]:
    then [has_fever = true] is recorded and the step becomes
    [fever_duration].  Otherwise it is negative exactly when it contains
    [no] or [nope] or is the single letter [n]: then [has_fever = false]
    is recorded and the step becomes [other_symptoms].  Every other answer
    only adds the re-prompt [Please answer with Yes or No.], leaving step
    and answers as they are. *)
Theorem start_classification (c s : State) (text : string) (now : Z) :
  currentStep c = "start" ->
  let l := toLowerCase text in
  let affirmative := includes l "yes" = true \/ includes l "yep" = true \/ l = "y" in
  let negative := includes l "no" = true \/ includes l "nope" = true \/ l = "n" in
  let r := handleLocalResponse c text now s in
  (affirmative ->
     currentStep (fst r) = "fever_duration" /\
     sessionData (fst r) = <["has_fever" := VBool true]> (sessionData c)) /\
  (~ affirmative -> negative ->
     currentStep (fst r) = "other_symptoms" /\
     sessionData (fst r) = <["has_fever" := VBool false]> (sessionData c)) /\
  (~ affirmative -> ~ negative ->
     r = pushMessage (botMessage now "Please answer with Yes or No." None None) s /\
     currentStep (fst r) = currentStep s /\
     sessionData (fst r) = sessionData s /\
     completed (fst r) = completed s /\
     snd r = []) /\
  (currentStep (fst (run (fun c' => handleLocalResponse c' text now) c))
     = "fever_duration" <-> affirmative) /\
  (currentStep (fst (run (fun c' => handleLocalResponse c' text now) c))
     = "other_symptoms" <-> ~ affirmative /\ negative).
Proof.
  intros Hstep l affirmative negative r.
  assert (Haff : affirmative <->
            includes l "yes" || includes l "yep" || String.eqb l "y" = true).
  { unfold affirmative. rewrite !orb_true_iff, String.eqb_eq. tauto. }
  assert (Hneg : negative <->
            includes l "no" || includes l "nope" || String.eqb l "n" = true).
  { unfold negative. rewrite !orb_true_iff, String.eqb_eq. tauto. }
  subst r. unfold run, handleLocalResponse. fold l. rewrite Hstep.
  change (String.eqb "start" "start" || String.eqb "start" "has_fever") with true.
  cbv iota.
  destruct (includes l "yes" || includes l "yep" || String.eqb l "y") eqn:A.
  - simpl. repeat split; try tauto; discriminate.
  - assert (Hna : ~ affirmative) by (rewrite Haff; discriminate).
    destruct (includes l "no" || includes l "nope" || String.eqb l "n") eqn:N.
    + simpl. repeat split; try tauto; try discriminate.
    + assert (Hnn : ~ negative) by (rewrite Hneg; discriminate).
      simpl. repeat split; try tauto; try (rewrite Hstep; discriminate);
        congruence.
Qed.

Lemma start_classification_witness :
  currentStep (localAt "start") = "start" /\
  currentStep (fst (handleLocalResponse (localAt "start") "Yep!" 2000
                      (localAt "start"))) = "fever_duration".
Proof.
  split; [reflexivity|].
  destruct (start_classification (localAt "start") (localAt "start") "Yep!" 2000
              eq_refl) as (Haff & _).
  apply Haff. right. left. reflexivity.
Defined.

(** C7, as stated, fails: with a step the local catalog does not know,
    the engine changes nothing; it does not go back to [start] and adds
    no reply. *)
Lemma unknown_step_counterexample :
  handleLocalResponse (remoteAt "symptoms") "headache" 5000 (remoteAt "symptoms")
    = (remoteAt "symptoms", []) /\
  currentStep (fst (handleLocalResponse (remoteAt "symptoms") "headache" 5000
                      (remoteAt "symptoms"))) <> "start".
Proof. split; [reflexivity | discriminate]. Qed.

(** C7, amended.  An answer submitted against a step the local catalog
    does not know (none of [start], [has_fever], [fever_duration],
    [temperature], [other_symptoms]) is dropped: the engine leaves the
    whole state as it is and has no effect; it raises no fault and does
    not restart at [start]. *)
Theorem unknown_step_ignored (c s : State) (text : string) (now : Z) :
  currentStep c <> "start" ->
  currentStep c <> "has_fever" ->
  currentStep c <> "fever_duration" ->
  currentStep c <> "temperature" ->
  currentStep c <> "other_symptoms" ->
  handleLocalResponse c text now s = (s, []).
Proof.
  intros H1 H2 H3 H4 H5. unfold handleLocalResponse.
  apply String.eqb_neq in H1, H2, H3, H4, H5.
  rewrite H1, H2, H3, H4, H5. reflexivity.
Qed.

Lemma unknown_step_ignored_witness :
  currentStep (remoteAt "complete") <> "start" /\
  handleLocalResponse (remoteAt "complete") "hello" 6000 (remoteAt "complete")
    = (remoteAt "complete", []).
Proof.
  split; [discriminate|].
  apply (unknown_step_ignored (remoteAt "complete") (remoteAt "complete")
           "hello" 6000); discriminate.
Defined.

(** *** The session controller *)

Lemma seq_fst (a b : Action) (s : State) : fst (seq a b s) = fst (b (fst (a s))).
Proof. unfold seq. destruct (a s) as [s1 t1]. simpl. destruct (b s1). reflexivity. Qed.

Lemma seq_snd (a b : Action) (s : State) :
  snd (seq a b s) = snd (a s) ++ snd (b (fst (a s))).
Proof. unfold seq. destruct (a s) as [s1 t1]. simpl. destruct (b s1). reflexivity. Qed.

Lemma startsWith_local (z : string) :
  startsWith (String.append "local-" z) "local-" = true.
Proof. unfold startsWith. simpl. destruct z; reflexivity. Qed.

(** C1, as stated, fails for the frontend copy: there a failed start
    request sets the error banner and opens no session at all. *)
Lemma frontend_start_counterexample :
  error (fst (Frontend.startSession 1000 Rejected initialState))
    = Some "Failed to start chatbot session" /\
  sessionId (fst (Frontend.startSession 1000 Rejected initialState)) = None /\
  messages (fst (Frontend.startSession 1000 Rejected initialState)) = [].
Proof. repeat split. Qed.

(** C1, amended.  In the patient portal, when the start request fails (the
    promise rejects, the status is not a success, or the body cannot be
    read), [startSession] opens a local session: the id is [local-]
    followed by the clock, the step is [start], the only message is the
    welcome question with the text the remote branch defaults to, no error
    is set and [loading] is cleared.  The frontend copy has no local mode:
    there the same failures set the error [Failed to start chatbot
    session] and leave session id, step and messages as they were. *)
Theorem start_failure_handling (now : Z) (r : FetchResult StartData) (s : State) :
  failed r = true ->
  (let s' := fst (PatientPortal.startSession now r s) in
   sessionId s' = Some (String.append "local-" (toString now)) /\
   isLocalMode s' = true /\
   currentStep s' = "start" /\
   messages s' = [welcomeMessage now] /\
   m_text (welcomeMessage now) =
     "Hello! I'm here to help assess your symptoms. Do you currently have a fever?" /\
   error s' = None /\
   loading s' = false /\
   sessionData s' = sessionData s /\
   completed s' = completed s) /\
  (let s' := fst (Frontend.startSession now r s) in
   error s' = Some "Failed to start chatbot session" /\
   sessionId s' = sessionId s /\
   currentStep s' = currentStep s /\
   messages s' = messages s /\
   loading s' = false).
Proof.
  intros Hf.
  assert (Hlocal : isLocalMode
            {| messages := [welcomeMessage now]; input := input s; loading := false;
               sessionId := Some (String.append "local-" (toString now));
               currentStep := "start"; sessionData := sessionData s;
               completed := completed s; error := None |} = true).
  { unfold isLocalMode. cbn [sessionId]. rewrite startsWith_local. reflexivity. }
  destruct r as [|[|] [d|]]; try discriminate Hf; simpl; repeat split; exact Hlocal.
Qed.

Lemma start_failure_handling_witness :
  failed (Response false (@None StartData)) = true /\
  fst (PatientPortal.startSession 1000 (Response false None) initialState) =
    {| messages := [welcomeMessage 1000]; input := ""; loading := false;
       sessionId := Some "local-1000"; currentStep := "start"; sessionData := ∅;
       completed := false; error := None |} /\
  error (fst (PatientPortal.startSession 1000 (Response false None) initialState))
    = None.
Proof.
  split; [reflexivity|]. split; [reflexivity|].
  destruct (start_failure_handling 1000 (Response false None) initialState eq_refl)
    as ((_ & _ & _ & _ & _ & He & _) & _).
  exact He.
Defined.



(** What one call of the engine can do: it never touches the session id
    or [loading]; either it completes the session with one of the three
    analyses, attached to the reply and handed to [onComplete], or it
    leaves [completed] alone and has no effect. *)
Lemma engine_step (c s : State) (text : string) (now : Z) :
  let r := handleLocalResponse c text now s in
  sessionId (fst r) = sessionId s /\
  loading (fst r) = loading s /\
  ((completed (fst r) = completed s /\ snd r = []) \/
   (exists a m, produced a /\ completed (fst r) = true /\
                messages (fst r) = messages s ++ [m] /\
                m_analysis m = Some a /\
                snd r = [OnComplete a])).
Proof.
  unfold handleLocalResponse.
  repeat match goal with
         | |- context [if ?b then _ else _] => destruct b eqn:?
         end;
    simpl; repeat split; auto;
    right; eexists; eexists; (split; [| repeat split]).
  - left. exists (parseFloat text). split; [|reflexivity].
    now apply negb_true_iff.
  - right. left. reflexivity.
  - right. right. reflexivity.
Qed.

(** The engine only ever reports to [onComplete]; it requests nothing. *)
Lemma engine_effects (c s : State) (text : string) (now : Z) (e : Effect) :
  In e (snd (handleLocalResponse c text now s)) -> isReport e = false.
Proof.
  destruct (engine_step c s text now) as (_ & _ & [[_ ->] | (a & m & _ & _ & _ & _ & ->)]).
  - intros [].
  - intros [<- | []]. reflexivity.
Qed.

(** The invariant of local sessions: the id keeps its [local-] prefix,
    no request is pending between two events, and a completed state shows
    an analysis built by the engine. *)
Lemma reachable_invariant (s : State) :
  reachable s ->
  isLocalMode s = true /\
  loading s = false /\
  (completed s = true -> exists a, shownAnalysis s = Some a /\ produced a).
Proof.
  induction 1 as [now r Hf | s text now r rep Hs (Hl & Hld & Hc) | s now r Hs _ Hf].
  - assert (Hlocal : isLocalMode
              {| messages := [welcomeMessage now]; input := ""; loading := false;
                 sessionId := Some (String.append "local-" (toString now));
                 currentStep := "start"; sessionData := ∅;
                 completed := false; error := None |} = true).
    { unfold isLocalMode. cbn [sessionId]. rewrite startsWith_local. reflexivity. }
    destruct r as [|[|] [d|]]; try discriminate Hf; simpl;
      (split; [exact Hlocal | split; [reflexivity | discriminate]]).
  - unfold run, sendMessage.
    destruct (negb (truthy (trim text)) || loading s || completed s) eqn:G.
    + simpl. auto.
    + apply orb_false_iff in G as [_ Hnc].
      rewrite Hl.
      rewrite !seq_fst.
      set (p := fst (setError None _)).
      destruct (engine_step s p (trim text) now) as (Hid & _ & Hstep).
      set (q := handleLocalResponse s (trim text) now p) in *.
      split; [|split].
      * unfold isLocalMode in *. simpl. rewrite Hid. exact Hl.
      * reflexivity.
      * simpl. destruct Hstep as [[Hsame _] | (a & m & Hp & _ & Hm & Ha & _)].
        -- rewrite Hsame. subst p. simpl. rewrite Hnc. discriminate.
        -- intros _. exists a. split; [|exact Hp].
           unfold shownAnalysis. simpl. rewrite Hm, last_pushed. exact Ha.
  - assert (Hlocal : isLocalMode
              {| messages := [welcomeMessage now]; input := input s; loading := false;
                 sessionId := Some (String.append "local-" (toString now));
                 currentStep := "start"; sessionData := ∅;
                 completed := false; error := None |} = true).
    { unfold isLocalMode. cbn [sessionId]. rewrite startsWith_local. reflexivity. }
    destruct r as [|[|] [d|]]; try discriminate Hf; simpl;
      (split; [exact Hlocal | split; [reflexivity | discriminate]]).
Qed.

Lemma reachable_sendAll (l : list Submission) (s : State) :
  reachable s -> reachable (sendAll l s).
Proof.
  revert s. induction l as [|x l IH]; intros s Hs; [exact Hs|].
  simpl. apply IH. apply reach_send. exact Hs.
Qed.

Lemma reachable_mounted : reachable mounted.
Proof. apply (reach_mount 1000 Rejected). reflexivity. Qed.


(** *** Terminal states *)




(** C4, as stated, fails: the two ways out of [other_symptoms] both end
    at level [low], with different recommendations; a reading of 37 ends
    at level [low] as well, with a third recommendation. *)
Lemma recommendation_by_level_counterexample :
  terminalAnalysis generalSymptomsAnalysis /\
  terminalAnalysis noFeverAnalysis /\
  risk_level generalSymptomsAnalysis = risk_level noFeverAnalysis /\
  recommendation generalSymptomsAnalysis <> recommendation noFeverAnalysis /\
  terminalAnalysis (temperatureAnalysis (parseFloat "37")) /\
  risk_level (temperatureAnalysis (parseFloat "37")) = risk_level noFeverAnalysis /\
  recommendation (temperatureAnalysis (parseFloat "37"))
    <> recommendation generalSymptomsAnalysis /\
  recommendation (temperatureAnalysis (parseFloat "37"))
    <> recommendation noFeverAnalysis.
Proof.
  split_and!.
  - exists otherSymptomsRun. split; [|split; reflexivity].
    apply reachable_sendAll, reachable_mounted.
  - exists noFeverRun. split; [|split; reflexivity].
    apply reachable_sendAll, reachable_mounted.
  - reflexivity.
  - discriminate.
  - exists (feverRun "37"). split; [|split; reflexivity].
    apply reachable_sendAll, reachable_mounted.
  - reflexivity.
  - intros H. vm_compute in H. discriminate H.
  - intros H. vm_compute in H. discriminate H.
Qed.

(** C4, amended.  For two analyses of reachable terminal states, equal
    levels together with equal fever types give equal recommendations:
    the recommendation is fixed by the branch that completed the session
    and, within the temperature branch, by the level through its
    three-way table. *)
Theorem recommendation_by_branch_and_level (a1 a2 : Analysis) :
  terminalAnalysis a1 ->
  terminalAnalysis a2 ->
  risk_level a1 = risk_level a2 ->
  suspected_fever_type a1 = suspected_fever_type a2 ->
  recommendation a1 = recommendation a2 /\
  (suspected_fever_type a1 = "Viral Fever" ->
   recommendation a1 = temperatureRecommendation (risk_level a1)).
Proof.
  intros (s1 & Hr1 & Hc1 & Hs1) (s2 & Hr2 & Hc2 & Hs2) Hlevel Htype.
  destruct (reachable_invariant s1 Hr1) as (_ & _ & H1).
  destruct (reachable_invariant s2 Hr2) as (_ & _ & H2).
  destruct (H1 Hc1) as (b1 & Hb1 & Hp1). rewrite Hs1 in Hb1. injection Hb1 as <-.
  destruct (H2 Hc2) as (b2 & Hb2 & Hp2). rewrite Hs2 in Hb2. injection Hb2 as <-.
  destruct Hp1 as [(t1 & _ & ->) | [-> | ->]];
    destruct Hp2 as [(t2 & _ & ->) | [-> | ->]];
    try discriminate Htype;
    (split; [| try reflexivity; try discriminate]); try reflexivity.
  change (temperatureRecommendation (risk_level (temperatureAnalysis t1)) =
          temperatureRecommendation (risk_level (temperatureAnalysis t2))).
  rewrite Hlevel. reflexivity.
Qed.

Lemma recommendation_by_branch_and_level_witness :
  terminalAnalysis (temperatureAnalysis (parseFloat "37")) /\
  terminalAnalysis (temperatureAnalysis (parseFloat "36.5")) /\
  recommendation (temperatureAnalysis (parseFloat "37")) =
  recommendation (temperatureAnalysis (parseFloat "36.5")).
Proof.
  assert (H1 : terminalAnalysis (temperatureAnalysis (parseFloat "37"))).
  { exists (feverRun "37"). split; [|split; reflexivity].
    apply reachable_sendAll, reachable_mounted. }
  assert (H2 : terminalAnalysis (temperatureAnalysis (parseFloat "36.5"))).
  { exists (feverRun "36.5"). split; [|split; reflexivity].
    apply reachable_sendAll, reachable_mounted. }
  split; [exact H1|]. split; [exact H2|].
  exact (proj1 (recommendation_by_branch_and_level _ _ H1 H2 eq_refl eq_refl)).
Defined.

(** *** The report sink *)

(** C9.  The code departs from the claim when the local engine completes
    the session.  After a mount without backend the answers [Yes],
    [3-4 days] and [39.5] complete the session: the analysis is shown and
    handed to [onComplete], and the banner reads [Assessment complete.
    Report has been saved.]; yet the completing submission makes no
    report request.  No call of the local engine, in whatever state, makes
    one.  The remote branch, given the same analysis by the backend at the
    same step, does submit the report. *)
Theorem local_completion_without_report :
  let s0 := sendAll [answer "Yes" 2000; answer "3-4 days" 3000] mounted in
  let res := run (fun c => sendMessage c "39.5" 4000 Rejected Rejected) s0 in
  let a := temperatureAnalysis (parseFloat "39.5") in
  completed (fst res) = true /\
  shownAnalysis (fst res) = Some a /\
  completionBanner (fst res) = Some "Assessment complete. Report has been saved." /\
  snd res = [OnComplete a] /\
  (forall c s text now,
     existsb isReport (snd (handleLocalResponse c text now s)) = false) /\
  In (PostReport (Some "c0ffee") None a)
     (snd (run (fun c => sendMessage c "39.5" 4000
                           (Response true (Some (completingReply a))) Rejected)
             (remoteAt "temperature"))).
Proof.
  cbv zeta. split; [reflexivity|]. split; [reflexivity|].
  split; [reflexivity|]. split; [reflexivity|]. split.
  - intros c s text now.
    destruct (existsb isReport (snd (handleLocalResponse c text now s))) eqn:E;
      [|reflexivity].
    apply existsb_exists in E. destruct E as (e & Hin & He).
    rewrite (engine_effects c s text now e Hin) in He. discriminate He.
  - simpl. auto.
Qed.

(** X22.  The report of a remote session.  When the backend's reply to an
    accepted answer (an ASCII text that is not blank) carries an analysis
    and the session id is not empty, the controller marks the session
    completed, hands the analysis to [onComplete] and submits a report
    with the session id and the analysis.  A failure of the report
    request is swallowed: whatever becomes of it, the handler ends in the
    same state, completed and showing the analysis. *)
Theorem report_submission (c s : State) (text : string) (now : Z)
    (data : MessageData) (a : Analysis) (rep : FetchResult unit) :
  asciiText text ->
  truthy (trim text) = true ->
  loading c = false ->
  completed c = false ->
  isLocalMode c = false ->
  truthy_opt (sessionId c) = true ->
  md_analysis data = Some a ->
  let r := sendMessage c text now (Response true (Some data)) rep s in
  In (PostReport (sessionId c) None a) (snd r) /\
  In (OnComplete a) (snd r) /\
  completed (fst r) = true /\
  shownAnalysis (fst r) = Some a /\
  (forall rep',
     fst (sendMessage c text now (Response true (Some data)) rep' s) = fst r).
Proof.
  intros _ Ht Hl Hc Hmode Hsid Ha r. subst r.
  assert (G : negb (truthy (trim text)) || loading c || completed c = false)
    by (rewrite Ht, Hl, Hc; reflexivity).
  unfold sendMessage. rewrite G, Hmode, Ha, Hsid, orb_true_r.
  destruct (md_session_data data) as [d|], rep as [|ok body]; simpl;
    (split; [auto | split; [auto | split; [reflexivity | split]]]);
    try (unfold shownAnalysis; simpl; rewrite last_pushed; reflexivity);
    intros [|ok' body']; reflexivity.
Qed.

Lemma report_submission_witness :
  asciiText "39.5" /\
  truthy (trim "39.5") = true /\
  loading (remoteAt "temperature") = false /\
  completed (remoteAt "temperature") = false /\
  isLocalMode (remoteAt "temperature") = false /\
  In (PostReport (Some "c0ffee") None noFeverAnalysis)
     (snd (sendMessage (remoteAt "temperature") "39.5" 4000
             (Response true (Some (completingReply noFeverAnalysis))) Rejected
             (remoteAt "temperature"))) /\
  completed (fst (sendMessage (remoteAt "temperature") "39.5" 4000
             (Response true (Some (completingReply noFeverAnalysis))) Rejected
             (remoteAt "temperature"))) = true.
Proof.
  assert (Ha : asciiText "39.5")
    by (repeat (constructor; [reflexivity|]); constructor).
  split; [exact Ha|].
  split; [reflexivity|]. split; [reflexivity|]. split; [reflexivity|].
  split; [reflexivity|].
  destruct (report_submission (remoteAt "temperature") (remoteAt "temperature")
              "39.5" 4000 (completingReply noFeverAnalysis) noFeverAnalysis Rejected
              Ha eq_refl eq_refl eq_refl eq_refl eq_refl eq_refl)
    as (Hin & _ & Hc & _).
  split; [exact Hin | exact Hc].
Defined.

(** *** Further properties of the patient portal *)



(** What [sendMessage] does in a local session that accepts the text. *)
Lemma sendMessage_local (c s : State) (text : string) (now : Z)
    (r : FetchResult MessageData) (rep : FetchResult unit) :
  isLocalMode c = true -> truthy (trim text) = true ->
  loading c = false -> completed c = false ->
  sendMessage c text now r rep s =
    (pushMessage (userMessage text now) >> setInput "" >> setLoading true >>
     setError None >> handleLocalResponse c (trim text) now >> setLoading false)%act s.
Proof.
  intros Hl Ht Hld Hc. unfold sendMessage. rewrite Ht, Hld, Hc, Hl. reflexivity.
Qed.












(** *** Further properties of the local engine *)

(** X5.  At step [fever_duration] the engine accepts any text: it is
    recorded as typed under [fever_duration] in a copy of the closure's
    answers (the other keys keep their values), the step becomes
    [temperature], the reply asks for the temperature and offers no
    options, and nothing is completed. *)
Theorem duration_recorded (c s : State) (text : string) (now : Z) :
  currentStep c = "fever_duration" ->
  let r := handleLocalResponse c text now s in
  currentStep (fst r) = "temperature" /\
  sessionData (fst r) !! "fever_duration" = Some (VStr text) /\
  (forall k, k <> "fever_duration" -> sessionData (fst r) !! k = sessionData c !! k) /\
  completed (fst r) = completed s /\
  (exists m, messages (fst r) = messages s ++ [m] /\
             m_text m = "What is your current body temperature? (in Celsius)" /\
             m_question m = None /\ m_analysis m = None) /\
  snd r = [].
Proof.
  intros Hs r. subst r. unfold handleLocalResponse. rewrite Hs. simpl.
  split_and!; auto.
  - apply lookup_insert_eq.
  - intros k Hk. apply lookup_insert_ne. congruence.
  - eexists. split_and!; reflexivity.
Qed.

Lemma duration_recorded_witness :
  currentStep (localAt "fever_duration") = "fever_duration" /\
  sessionData (fst (handleLocalResponse (localAt "fever_duration") "Since MONDAY" 3000
                      (localAt "fever_duration"))) !! "fever_duration"
    = Some (VStr "Since MONDAY").
Proof.
  split; [reflexivity|].
  destruct (duration_recorded (localAt "fever_duration") (localAt "fever_duration")
              "Since MONDAY" 3000 eq_refl) as (_ & H & _).
  exact H.
Defined.

(** X6.  At step [other_symptoms] an answer whose lower-cased text
    contains [yes] records [other_symptoms = true] and completes the
    session with score 40, level [low] and type [General Symptoms]; the
    session is completed with the general-symptoms analysis exactly for
    those answers. *)
Theorem other_symptoms_affirmative (c s : State) (text : string) (now : Z) :
  currentStep c = "other_symptoms" ->
  let r := handleLocalResponse c text now s in
  (includes (toLowerCase text) "yes" = true ->
     sessionData (fst r) = <["other_symptoms" := VBool true]> (sessionData c) /\
     (exists m, messages (fst r) = messages s ++ [m] /\
                m_analysis m = Some generalSymptomsAnalysis /\
                m_text m = String.append "Thank you for the information. "
                             (recommendation generalSymptomsAnalysis)) /\
     risk_score generalSymptomsAnalysis = 40 /\
     risk_level generalSymptomsAnalysis = "low" /\
     suspected_fever_type generalSymptomsAnalysis = "General Symptoms") /\
  (snd r = [OnComplete generalSymptomsAnalysis] <->
   includes (toLowerCase text) "yes" = true).
Proof.
  intros Hs r. subst r. unfold handleLocalResponse. rewrite Hs. simpl.
  destruct (includes (toLowerCase text) "yes"); simpl.
  - split; [intros _; split_and!; auto; eexists; split_and!; reflexivity|].
    split; auto.
  - split; [discriminate|]. split; [discriminate | discriminate].
Qed.

Lemma other_symptoms_affirmative_witness :
  currentStep (localAt "other_symptoms") = "other_symptoms" /\
  snd (handleLocalResponse (localAt "other_symptoms") "Yes, a headache" 3000
         (localAt "other_symptoms")) = [OnComplete generalSymptomsAnalysis].
Proof.
  split; [reflexivity|].
  destruct (other_symptoms_affirmative (localAt "other_symptoms")
              (localAt "other_symptoms") "Yes, a headache" 3000 eq_refl) as (_ & H).
  apply H. reflexivity.
Defined.

(** X7.  The affirmative words differ by step: an answer that contains
    [yep] or is the single letter [y], without containing [yes], counts as
    yes at [start] (the step becomes [fever_duration]) and as no at
    [other_symptoms] (the session completes with the no-fever
    analysis). *)
Theorem affirmative_words_differ (c1 c2 s : State) (text : string) (now : Z) :
  currentStep c1 = "start" ->
  currentStep c2 = "other_symptoms" ->
  includes (toLowerCase text) "yes" = false ->
  includes (toLowerCase text) "yep" = true \/ toLowerCase text = "y" ->
  currentStep (fst (handleLocalResponse c1 text now s)) = "fever_duration" /\
  sessionData (fst (handleLocalResponse c1 text now s))
    = <["has_fever" := VBool true]> (sessionData c1) /\
  snd (handleLocalResponse c2 text now s) = [OnComplete noFeverAnalysis] /\
  sessionData (fst (handleLocalResponse c2 text now s))
    = <["other_symptoms" := VBool false]> (sessionData c2).
Proof.
  intros H1 H2 Hyes Hother.
  assert (Haff : includes (toLowerCase text) "yes"
                 || includes (toLowerCase text) "yep"
                 || String.eqb (toLowerCase text) "y" = true).
  { destruct Hother as [-> | ->]; [apply orb_true_iff; left; apply orb_true_r|].
    reflexivity. }
  unfold handleLocalResponse. rewrite H1, H2. simpl.
  rewrite Haff, Hyes. simpl. auto.
Qed.

Lemma affirmative_words_differ_witness :
  currentStep (localAt "start") = "start" /\
  currentStep (localAt "other_symptoms") = "other_symptoms" /\
  includes (toLowerCase "Yep") "yes" = false /\
  currentStep (fst (handleLocalResponse (localAt "start") "Yep" 2000
                      (localAt "start"))) = "fever_duration" /\
  snd (handleLocalResponse (localAt "other_symptoms") "Yep" 2000
         (localAt "start")) = [OnComplete noFeverAnalysis].
Proof.
  split; [reflexivity|]. split; [reflexivity|]. split; [reflexivity|].
  destruct (affirmative_words_differ (localAt "start") (localAt "other_symptoms")
              (localAt "start") "Yep" 2000 eq_refl eq_refl eq_refl
              (or_introl eq_refl)) as (Ha & _ & Hb & _).
  split; [exact Ha | exact Hb].
Defined.

(** X8.  Restarting from any state, whatever the start request answers,
    gives the state of a fresh mount with the same clock and answer; only
    the text in the input box is kept.  In particular the answers are
    emptied, the session is not completed, no error is set and the
    transcript is the single greeting. *)
Theorem restart_is_fresh_mount (now : Z) (r : FetchResult StartData) (s : State) :
  fst (handleRestart now r s)
    = fst (setInput (input s) (fst (startSession now r initialState))) /\
  sessionData (fst (handleRestart now r s)) = ∅ /\
  completed (fst (handleRestart now r s)) = false /\
  error (fst (handleRestart now r s)) = None /\
  loading (fst (handleRestart now r s)) = false /\
  (exists m, messages (fst (handleRestart now r s)) = [m] /\ m_sender m = bot) /\
  fst (handleRestart now r (fst (handleRestart now r s))) = fst (handleRestart now r s).
Proof.
  destruct r as [|[|] [d|]]; simpl; split_and!; try reflexivity;
    eexists; split; reflexivity.
Qed.

(** X9.  The fever path, for ASCII texts: after a mount without backend,
    the answers [Yes], any duration that is not blank and any text that
    [parseFloat] reads as a number complete the session in three
    submissions; the answers on record are [has_fever = true], the trimmed
    duration and the number read, the analysis shown is the temperature
    analysis of that number, and the transcript has seven messages. *)
Theorem fever_conversation (n0 n1 n2 n3 : Z) (r : FetchResult StartData)
    (duration temperature : string) :
  failed r = true ->
  asciiText duration ->
  asciiText temperature ->
  truthy (trim duration) = true ->
  isNaN (parseFloat (trim temperature)) = false ->
  let s := sendAll [answer "Yes" n1; answer duration n2; answer temperature n3]
             (fst (startSession n0 r initialState)) in
  completed s = true /\
  currentStep s = "complete" /\
  sessionData s = <["temperature" := VNum (parseFloat (trim temperature))]>
                    (<["fever_duration" := VStr (trim duration)]>
                       (<["has_fever" := VBool true]> ∅)) /\
  shownAnalysis s = Some (temperatureAnalysis (parseFloat (trim temperature))) /\
  length (messages s) = 7%nat.
Proof.
  intros Hf _ _ Hd Ht s.
  assert (Htt : truthy (trim temperature) = true).
  { destruct (trim temperature); [discriminate Ht | reflexivity]. }
  assert (Hstart : fst (startSession n0 r initialState) =
            {| messages := [welcomeMessage n0]; input := ""; loading := false;
               sessionId := Some (String.append "local-" (toString n0));
               currentStep := "start"; sessionData := ∅;
               completed := false; error := None |})
    by (destruct r as [|[|] [b|]]; try discriminate Hf; reflexivity).
  assert (Hlocal : forall m i ld st sd cp e,
             isLocalMode {| messages := m; input := i; loading := ld;
                            sessionId := Some (String.append "local-" (toString n0));
                            currentStep := st; sessionData := sd; completed := cp;
                            error := e |} = true).
  { intros. unfold isLocalMode. cbn [sessionId]. rewrite startsWith_local. reflexivity. }
  subst s. rewrite Hstart. unfold sendAll, answer, run.
  cbn [sub_text sub_now sub_reply sub_report].
  match goal with
  | |- context [sendMessage ?c "Yes" ?n ?a ?b ?c] =>
      remember (fst (sendMessage c "Yes" n a b c)) as s1 eqn:E1
  end.
  rewrite sendMessage_local in E1 by (try apply Hlocal; reflexivity).
  unfold handleLocalResponse in E1. cbn [currentStep] in E1.
  change (toLowerCase (trim "Yes")) with "yes" in E1. simpl in E1. subst s1.
  match goal with
  | |- context [sendMessage ?c duration ?n ?a ?b ?c] =>
      remember (fst (sendMessage c duration n a b c)) as s2 eqn:E2
  end.
  rewrite sendMessage_local in E2 by (try apply Hlocal; auto).
  unfold handleLocalResponse in E2. simpl in E2. subst s2.
  match goal with
  | |- context [sendMessage ?c temperature ?n ?a ?b ?c] =>
      remember (fst (sendMessage c temperature n a b c)) as s3 eqn:E3
  end.
  rewrite sendMessage_local in E3 by (try apply Hlocal; auto).
  unfold handleLocalResponse in E3. simpl in E3. rewrite Ht in E3. simpl in E3.
  subst s3.
  split_and!; reflexivity.
Qed.

Lemma fever_conversation_witness :
  failed (@Rejected StartData) = true /\
  asciiText "  since Monday " /\
  asciiText "38.4 C" /\
  truthy (trim "  since Monday ") = true /\
  isNaN (parseFloat (trim "38.4 C")) = false /\
  risk_score <$> shownAnalysis
    (sendAll [answer "Yes" 2; answer "  since Monday " 3; answer "38.4 C" 4]
       (fst (startSession 1 Rejected initialState))) = Some 50.
Proof.
  assert (Hd : asciiText "  since Monday ")
    by (repeat (constructor; [reflexivity|]); constructor).
  assert (Ht : asciiText "38.4 C")
    by (repeat (constructor; [reflexivity|]); constructor).
  split; [reflexivity|]. split; [exact Hd|]. split; [exact Ht|].
  split; [reflexivity|]. split; [reflexivity|].
  destruct (fever_conversation 1 2 3 4 Rejected "  since Monday " "38.4 C"
              eq_refl Hd Ht eq_refl eq_refl) as (_ & _ & _ & H & _).
  rewrite H. reflexivity.
Defined.

(** *** Further properties of the session controller *)

Lemma trimStart_blank (text : string) : blank text -> trimStart text = "".
Proof.
  unfold blank. induction text as [|ch text IH]; simpl; intros H; [reflexivity|].
  inversion H as [|? ? Hch Hrest]; subst. rewrite Hch. apply IH, Hrest.
Qed.

Lemma trimEnd_empty (text : string) : trimEnd text = "" -> blank text.
Proof.
  unfold blank. induction text as [|ch text IH]; simpl; intros H; [constructor|].
  destruct (trimEnd text) eqn:E; [|discriminate H].
  destruct (is_space ch) eqn:Hch; [|discriminate H].
  constructor; [exact Hch | apply IH; reflexivity].
Qed.

Lemma trimStart_empty (text : string) : blank (trimStart text) -> blank text.
Proof.
  unfold blank. induction text as [|ch text IH]; simpl; intros H; [constructor|].
  destruct (is_space ch) eqn:Hch.
  - constructor; [exact Hch | apply IH, H].
  - exact H.
Qed.

(** A text trims to the empty string exactly when it is blank. *)
Lemma trim_empty_iff (text : string) : trim text = "" <-> blank text.
Proof.
  unfold trim. split.
  - intros H. apply trimStart_empty, trimEnd_empty, H.
  - intros H. rewrite (trimStart_blank text H). reflexivity.
Qed.

Lemma truthy_trim (text : string) : truthy (trim text) = false <-> blank text.
Proof.
  rewrite <- trim_empty_iff. destruct (trim text); simpl; split; congruence.
Qed.

(** What the engine leaves alone, and how the transcript grows. *)
Lemma engine_frame (c p : State) (text : string) (now : Z) :
  let r := handleLocalResponse c text now p in
  input (fst r) = input p /\
  loading (fst r) = loading p /\
  sessionId (fst r) = sessionId p /\
  error (fst r) = error p /\
  (exists l, messages (fst r) = messages p ++ l /\ Forall (fun m => m_sender m = bot) l).
Proof.
  unfold handleLocalResponse.
  repeat match goal with
         | |- context [if ?b then _ else _] => destruct b eqn:?
         end;
    simpl; split_and!; auto;
    first [ eexists; split; [reflexivity | repeat constructor]
          | exists []; split; [symmetry; apply app_nil_r | constructor] ].
Qed.

(** What the engine writes does not depend on the pending state it is
    applied to. *)
Lemma engine_pending (c p q : State) (text : string) (now : Z) :
  currentStep p = currentStep q ->
  sessionData p = sessionData q ->
  completed p = completed q ->
  let rp := handleLocalResponse c text now p in
  let rq := handleLocalResponse c text now q in
  currentStep (fst rp) = currentStep (fst rq) /\
  sessionData (fst rp) = sessionData (fst rq) /\
  completed (fst rp) = completed (fst rq) /\
  snd rp = snd rq.
Proof.
  intros H1 H2 H3. unfold handleLocalResponse.
  repeat match goal with
         | |- context [if ?b then _ else _] => destruct b eqn:?
         end;
    simpl; auto.
Qed.

Lemma sendMessage_dropped (c s : State) (text : string) (now : Z)
    (r : FetchResult MessageData) (rep : FetchResult unit) :
  truthy (trim text) = false \/ loading c = true \/ completed c = true ->
  sendMessage c text now r rep s = (s, []).
Proof.
  intros H. unfold sendMessage.
  assert (G : negb (truthy (trim text)) || loading c || completed c = true).
  { destruct H as [H | [H | H]]; rewrite H.
    - reflexivity.
    - apply orb_true_iff. left. apply orb_true_r.
    - apply orb_true_r. }
  rewrite G. reflexivity.
Qed.

Lemma sendMessage_frame (c s : State) (text : string) (now : Z)
    (r : FetchResult MessageData) (rep : FetchResult unit) :
  truthy (trim text) = true -> loading c = false -> completed c = false ->
  let res := sendMessage c text now r rep s in
  (exists l, messages (fst res) = messages s ++ userMessage text now :: l /\
             Forall (fun m => m_sender m = bot) l) /\
  input (fst res) = "" /\
  loading (fst res) = false /\
  error (fst res) = None /\
  sessionId (fst res) = sessionId s.
Proof.
  intros Ht Hl Hc res. subst res.
  unfold sendMessage. rewrite Ht, Hl, Hc. cbn [negb orb].
  set (p := {| messages := messages s ++ [userMessage text now]; input := "";
               loading := true; sessionId := sessionId s;
               currentStep := currentStep s; sessionData := sessionData s;
               completed := completed s; error := None |}).
  assert (Heng :
            let res := setLoading false (fst (handleLocalResponse c (trim text) now p)) in
            (exists l, messages (fst res) = messages s ++ userMessage text now :: l /\
                       Forall (fun m => m_sender m = bot) l) /\
            input (fst res) = "" /\ loading (fst res) = false /\
            error (fst res) = None /\ sessionId (fst res) = sessionId s).
  { destruct (engine_frame c p (trim text) now) as (Hi & _ & Hsid & He & l & Hm & Hl').
    simpl. rewrite Hi, He, Hsid, Hm. subst p. cbn [messages input error sessionId].
    split_and!; auto. exists l. rewrite <- app_assoc. auto. }
  destruct (isLocalMode c).
  - rewrite !seq_fst. apply Heng.
  - destruct r as [|[|] [d|]]; rewrite !seq_fst; try apply Heng.
    destruct (md_session_data d);
      destruct (md_completed d || present (md_analysis d));
      destruct (md_analysis d); destruct (truthy_opt (sessionId c));
      destruct rep; destruct (truthy_opt (md_next_step d)); simpl;
      (split_and!; auto; eexists; rewrite <- app_assoc; split;
       [reflexivity | repeat constructor]).
Qed.

(** X10.  A submission is dropped, with the state untouched and nothing
    requested, when its text is blank (only ASCII white space), a request
    is in flight or the session is completed.  An ASCII text that is not
    blank, submitted while no request is in flight and the session is not
    completed, is accepted in either mode and whatever the backend
    answers: the user's trimmed text is appended right after the existing
    transcript, any further message comes from the bot, the input box is
    emptied, and the handler, run to its end, leaves [loading] cleared and
    no error set; the session id is never changed. *)
Theorem submission_accepted_or_dropped (c s : State) (text : string) (now : Z)
    (r : FetchResult MessageData) (rep : FetchResult unit) :
  let res := sendMessage c text now r rep s in
  (blank text \/ loading c = true \/ completed c = true -> res = (s, [])) /\
  (asciiText text -> ~ blank text -> loading c = false -> completed c = false ->
     fst res <> s /\
     (exists l, messages (fst res) = messages s ++ userMessage text now :: l /\
                Forall (fun m => m_sender m = bot) l) /\
     input (fst res) = "" /\
     loading (fst res) = false /\
     error (fst res) = None /\
     sessionId (fst res) = sessionId s).
Proof.
  intros res. subst res. split.
  - intros [H | H]; apply sendMessage_dropped; auto.
    left. apply truthy_trim, H.
  - intros _ Hb Hl Hc.
    assert (Ht : truthy (trim text) = true).
    { destruct (truthy (trim text)) eqn:E; [reflexivity|].
      exfalso. apply Hb, truthy_trim, E. }
    pose proof (sendMessage_frame c s text now r rep Ht Hl Hc) as Hframe.
    split; [|exact Hframe].
    destruct Hframe as ((l & Hm & _) & _).
    intros Heq. rewrite Heq in Hm.
    apply (f_equal length) in Hm. rewrite length_app in Hm. simpl in Hm. lia.
Qed.

Lemma submission_accepted_or_dropped_witness :
  (blank "   " /\
   sendMessage mounted "   " 2000 Rejected Rejected mounted = (mounted, [])) /\
  (asciiText "Yes" /\ ~ blank "Yes" /\
   loading mounted = false /\ completed mounted = false /\
   input (fst (sendMessage mounted "Yes" 2000 Rejected Rejected mounted)) = "").
Proof.
  assert (Hb : blank "   ") by (repeat constructor).
  assert (Ha : asciiText "Yes")
    by (repeat (constructor; [reflexivity|]); constructor).
  assert (Hn : ~ blank "Yes").
  { intros H. apply truthy_trim in H. discriminate H. }
  split.
  - split; [exact Hb|].
    apply (proj1 (submission_accepted_or_dropped mounted mounted "   " 2000
                    Rejected Rejected)).
    left. exact Hb.
  - split; [exact Ha|]. split; [exact Hn|].
    split; [reflexivity|]. split; [reflexivity|].
    destruct (submission_accepted_or_dropped mounted mounted "Yes" 2000
                Rejected Rejected) as (_ & H).
    destruct (H Ha Hn eq_refl eq_refl) as (_ & _ & Hi & _).
    exact Hi.
Defined.

Lemma startSession_cut (now : Z) (r : FetchResult StartData) (s : State) :
  runAll [startSessionBegin; startSessionResume now r] s = startSession now r s.
Proof.
  unfold runAll, startSessionBegin, startSessionResume, startSession.
  destruct r as [|[|] [d|]]; cbn [foldr]; unfold seq; simpl; reflexivity.
Qed.

Lemma handleRestart_cut (now : Z) (r : FetchResult StartData) (s : State) :
  runAll [handleRestartBegin; startSessionResume now r] s = handleRestart now r s.
Proof.
  unfold runAll, handleRestartBegin, handleRestart, startSessionBegin,
    startSessionResume, startSession.
  destruct r as [|[|] [d|]]; cbn [foldr]; unfold seq; simpl; reflexivity.
Qed.

Lemma sendMessage_cut (c s : State) (text : string) (now : Z)
    (r : FetchResult MessageData) (rep : FetchResult unit) :
  runAll (sendMessageBegin c text now :: sendMessageRest c text now r rep) s
    = sendMessage c text now r rep s.
Proof.
  unfold sendMessageRest, awaitsReply, awaitsReport, sendMessageBegin, sendMessage,
    runAll.
  destruct (negb (truthy (trim text)) || loading c || completed c); [reflexivity|].
  cbn [negb andb].
  destruct (isLocalMode c); cbn [negb foldr].
  - unfold seq. simpl.
    destruct (handleLocalResponse c (trim text) now _) as [s1 t1]. simpl.
    rewrite !app_nil_r. reflexivity.
  - destruct r as [|[|] [d|]]; cbn [foldr sendMessageReply].
    + unfold seq. simpl.
      destruct (handleLocalResponse c (trim text) now _) as [s1 t1]. simpl.
      rewrite ?app_nil_r. reflexivity.
    + destruct (md_analysis d) as [a|]; cbn [present andb];
        [destruct (truthy_opt (sessionId c)) eqn:Hsid|];
        cbn [foldr]; rewrite ?orb_true_r;
        destruct (md_session_data d), (md_completed d),
                 (truthy_opt (md_next_step d)), rep; unfold seq; simpl; reflexivity.
    + unfold seq. simpl.
      destruct (handleLocalResponse c (trim text) now _) as [s1 t1]. simpl.
      rewrite ?app_nil_r. reflexivity.
    + unfold seq. simpl.
      destruct (handleLocalResponse c (trim text) now _) as [s1 t1]. simpl.
      rewrite ?app_nil_r. reflexivity.
    + unfold seq. simpl.
      destruct (handleLocalResponse c (trim text) now _) as [s1 t1]. simpl.
      rewrite ?app_nil_r. reflexivity.
Qed.

Lemma errorFree_engine (c : State) (text : string) (now : Z) :
  errorFree (handleLocalResponse c text now).
Proof.
  intros s He. destruct (engine_frame c s text now) as (_ & _ & _ & H & _).
  rewrite H. exact He.
Qed.

Lemma errorFree_seq (a b : Action) : errorFree a -> errorFree b -> errorFree (seq a b).
Proof. intros Ha Hb s He. rewrite seq_fst. apply Hb, Ha, He. Qed.

Lemma errorFree_parts (c : State) (text : string) (now : Z)
    (r : FetchResult MessageData) (rep : FetchResult unit) (r0 : FetchResult StartData) :
  errorFree startSessionBegin /\
  errorFree (startSessionResume now r0) /\
  errorFree handleRestartBegin /\
  errorFree (sendMessageBegin c text now) /\
  Forall errorFree (sendMessageRest c text now r rep).
Proof.
  assert (Hset : forall a, (forall s, error (fst (a s)) = error s \/ error (fst (a s)) = None) ->
                      errorFree a).
  { intros a H s He. destruct (H s) as [-> | ->]; auto. }
  assert (Hloading : errorFree (setLoading false)) by (apply Hset; intros; left; reflexivity).
  assert (Hreply : errorFree (sendMessageReply c text now r)).
  { unfold sendMessageReply.
    destruct r as [|[|] [d|]];
      try (repeat apply errorFree_seq; auto using errorFree_engine;
           apply Hset; intros; left; reflexivity).
    intros s He.
    destruct (md_session_data d), (md_completed d), (md_analysis d),
             (truthy_opt (sessionId c)), (truthy_opt (md_next_step d)); exact He. }
  assert (Hreport : errorFree (sendMessageReport rep)).
  { intros s He. destruct rep; exact He. }
  split_and!.
  - intros s _. reflexivity.
  - intros s He. destruct r0 as [|[|] [d|]]; exact He.
  - intros s _. reflexivity.
  - unfold sendMessageBegin.
    destruct (negb (truthy (trim text)) || loading c || completed c);
      [intros s He; exact He|].
    destruct (isLocalMode c).
    + repeat apply errorFree_seq; auto using errorFree_engine;
        apply Hset; intros; auto.
    + intros s _. reflexivity.
  - unfold sendMessageRest.
    destruct (awaitsReply c text); [|constructor].
    constructor; [exact Hreply|].
    destruct (awaitsReport c r); repeat constructor. exact Hreport.
Qed.

(** X11.  The patient portal never sets an error, so its error banner
    never shows: whatever the backend answers and whatever the user types,
    submits or restarts, also while handlers are suspended at a request
    and resume in any order, [error] is empty in every state. *)
Theorem portal_never_errors (s : State) (P : list (list Action)) :
  portalRuns s P -> error s = None.
Proof.
  intros H.
  assert (Hinv : error s = None /\ Forall (Forall errorFree) P).
  { induction H as [now r | s P v _ IH | s P text now r rep _ IH | s P now r _ IH
                    | s P1 P2 a k _ IH].
    - destruct (errorFree_parts initialState "" now Rejected Rejected r)
        as (_ & Hres & _).
      split; [reflexivity|]. repeat constructor. exact Hres.
    - exact IH.
    - destruct IH as (He & HP).
      destruct (errorFree_parts s text now r rep Rejected) as (_ & _ & _ & Hb & Hrest).
      split; [apply Hb, He|]. constructor; assumption.
    - destruct IH as (He & HP).
      destruct (errorFree_parts s "" now Rejected Rejected r) as (_ & Hres & Hbegin & _).
      split; [apply Hbegin, He|]. constructor; [|exact HP].
      repeat constructor. exact Hres.
    - destruct IH as (He & HP).
      apply Forall_app in HP as (HP1 & HP2).
      apply Forall_cons in HP2 as (Hak & HP2).
      apply Forall_cons in Hak as (Ha & Hk).
      split; [apply Ha, He|].
      apply Forall_app. split; [exact HP1|]. constructor; assumption. }
  exact (proj1 Hinv).
Qed.

(* The run of the witness: a mount with the backend up, the answer 39.5,
   a reply with an analysis, a restart while the report request is pending,
   and only then the end of the report request. *)
Lemma portal_never_errors_witness :
  exists s P, portalRuns s P /\ messages s = [] /\ loading s = false /\
              completed s = false /\ error s = None.
Proof.
  pose (R := Response true (Some (completingReply noFeverAnalysis))).
  pose proof (runs_mount 1000 (Response true (Some remoteStart))) as H0.
  pose proof (runs_resume _ [] [] _ [] H0) as H1.
  pose proof (runs_send _ _ "39.5" 2000 R Rejected H1) as H2.
  pose proof (runs_resume _ [] [[]]
                (sendMessageReply remoteMounted "39.5" 2000 R)
                [sendMessageReport Rejected] H2) as H3.
  pose proof (runs_restart _ _ 3000 Rejected H3) as H4.
  pose proof (runs_resume _ [[startSessionResume 3000 Rejected]] [[]]
                (sendMessageReport Rejected) [] H4) as H5.
  eexists _, _. split; [exact H5|].
  split; [reflexivity|]. split; [reflexivity|]. split; [reflexivity|].
  exact (portal_never_errors _ _ H5).
Defined.

(** X12.  In a remote session, a reply of the backend that neither
    completes nor carries an analysis is applied as it is, without the
    local engine: the step becomes the reply's [next_step] when it has one
    and stays otherwise; the reply's [session_data] is merged over the
    pending answers (its keys win, the other keys keep their values); the
    transcript grows by the user's message and the bot's, whose text is
    the reply's [message], else its [response], else a fixed thanks; and
    the only effect is the message request. *)
Theorem remote_reply_applied (c s : State) (text : string) (now : Z)
    (data : MessageData) (rep : FetchResult unit) :
  truthy (trim text) = true -> loading c = false -> completed c = false ->
  isLocalMode c = false ->
  md_completed data = false ->
  md_analysis data = None ->
  let res := sendMessage c text now (Response true (Some data)) rep s in
  currentStep (fst res) =
    (if truthy_opt (md_next_step data) then default "" (md_next_step data)
     else currentStep s) /\
  (forall k, sessionData (fst res) !! k =
             match md_session_data data ≫= (fun d => d !! k) with
             | Some v => Some v
             | None => sessionData s !! k
             end) /\
  completed (fst res) = completed s /\
  messages (fst res) =
    messages s ++
    [userMessage text now;
     botMessage now
       (or_else (md_message data) (or_else (md_response data) "Thank you for your response."))
       (or_question (md_next_question data) (md_question data)) None] /\
  snd res = [PostMessage (sessionId c) (trim text) None].
Proof.
  intros Ht Hl Hc Hmode Hcomp Ha res. subst res.
  unfold sendMessage. rewrite Ht, Hl, Hc, Hmode, Hcomp, Ha. cbn [negb orb present].
  destruct (md_session_data data) as [d|], (truthy_opt (md_next_step data)); simpl;
    (split_and!; auto; try (rewrite <- app_assoc; reflexivity)).
  - intros k. destruct (d !! k) eqn:E.
    + apply lookup_union_Some_l, E.
    + apply lookup_union_r, E.
  - intros k. destruct (d !! k) eqn:E.
    + apply lookup_union_Some_l, E.
    + apply lookup_union_r, E.
Qed.

Lemma remote_reply_applied_witness :
  truthy (trim "Yes") = true /\
  isLocalMode (remoteAt "has_fever") = false /\
  currentStep (fst (sendMessage (remoteAt "has_fever") "Yes" 2000
                      (Response true (Some (askingReply hasFeverQuestion))) Rejected
                      (remoteAt "has_fever"))) = "fever_duration".
Proof.
  split; [reflexivity|]. split; [reflexivity|].
  destruct (remote_reply_applied (remoteAt "has_fever") (remoteAt "has_fever") "Yes" 2000
              (askingReply hasFeverQuestion) Rejected
              eq_refl eq_refl eq_refl eq_refl eq_refl eq_refl) as (H & _).
  exact H.
Defined.

(** X13.  Two edges of a remote completion.  A reply flagged [completed]
    without an analysis completes the session silently: [onComplete] is
    not called, no report is submitted, and the step stays even when the
    reply names a next one.  A reply with an analysis in a session whose
    id is missing or empty completes it and calls [onComplete], but
    submits no report. *)
Theorem remote_completion_edges (c s : State) (text : string) (now : Z)
    (data : MessageData) (rep : FetchResult unit) :
  truthy (trim text) = true -> loading c = false -> completed c = false ->
  isLocalMode c = false ->
  let res := sendMessage c text now (Response true (Some data)) rep s in
  (md_completed data = true -> md_analysis data = None ->
     completed (fst res) = true /\
     currentStep (fst res) = currentStep s /\
     shownAnalysis (fst res) = None /\
     snd res = [PostMessage (sessionId c) (trim text) None]) /\
  (forall a, md_analysis data = Some a -> truthy_opt (sessionId c) = false ->
     completed (fst res) = true /\
     shownAnalysis (fst res) = Some a /\
     snd res = [PostMessage (sessionId c) (trim text) None; OnComplete a]).
Proof.
  intros Ht Hl Hc Hmode res. subst res.
  unfold sendMessage. rewrite Ht, Hl, Hc, Hmode. cbn [negb orb].
  split.
  - intros Hcomp Ha. rewrite Hcomp, Ha. cbn [orb].
    destruct (md_session_data data) as [d|]; simpl;
      (split_and!; auto; unfold shownAnalysis; simpl; rewrite last_snoc; reflexivity).
  - intros a Ha Hsid. rewrite Ha, Hsid, orb_true_r.
    destruct (md_session_data data) as [d|]; simpl;
      (split_and!; auto; unfold shownAnalysis; simpl; rewrite last_snoc; reflexivity).
Qed.

Lemma remote_completion_edges_witness :
  truthy (trim "39") = true /\
  isLocalMode initialState = false /\
  snd (sendMessage initialState "39" 2000
         (Response true (Some (completingReply noFeverAnalysis))) Rejected initialState)
    = [PostMessage None "39" None; OnComplete noFeverAnalysis].
Proof.
  split; [reflexivity|]. split; [reflexivity|].
  destruct (remote_completion_edges initialState initialState "39" 2000
              (completingReply noFeverAnalysis) Rejected
              eq_refl eq_refl eq_refl eq_refl) as (_ & H).
  destruct (H noFeverAnalysis eq_refl eq_refl) as (_ & _ & Htr).
  exact Htr.
Defined.

(** X14.  When the message request of a remote session fails, the answer
    is handled by the local engine anchored at the step and answers of the
    closure: step, answers, completion flag and [onComplete] calls are
    those of the engine applied to the same text.  The session id is not
    changed, so the session stays remote and the next answer is sent to
    the backend again. *)
Theorem message_failure_degrades (c s : State) (text : string) (now : Z)
    (r : FetchResult MessageData) (rep : FetchResult unit) :
  truthy (trim text) = true -> loading c = false -> completed c = false ->
  isLocalMode c = false ->
  failed r = true ->
  let res := sendMessage c text now r rep s in
  let eng := handleLocalResponse c (trim text) now s in
  currentStep (fst res) = currentStep (fst eng) /\
  sessionData (fst res) = sessionData (fst eng) /\
  completed (fst res) = completed (fst eng) /\
  (forall a, In (OnComplete a) (snd res) <-> In (OnComplete a) (snd eng)) /\
  In (PostMessage (sessionId c) (trim text) None) (snd res) /\
  sessionId (fst res) = sessionId s /\
  isLocalMode (fst res) = isLocalMode s.
Proof.
  intros Ht Hl Hc Hmode Hf res eng. subst res eng.
  unfold sendMessage. rewrite Ht, Hl, Hc, Hmode. cbn [negb orb].
  set (p := {| messages := messages s ++
                 [{| m_id := toString now; m_text := trim text; m_sender := user;
                     m_timestamp := now; m_question := None; m_analysis := None |}];
               input := "";
               loading := true; sessionId := sessionId s;
               currentStep := currentStep s; sessionData := sessionData s;
               completed := completed s; error := None |}).
  destruct (engine_pending c p s (trim text) now eq_refl eq_refl eq_refl)
    as (H1 & H2 & H3 & H4).
  destruct (engine_frame c p (trim text) now) as (_ & _ & Hsid & _).
  assert (Hid : sessionId (fst (setLoading false
                   (fst (handleLocalResponse c (trim text) now p)))) = sessionId s)
    by (simpl; rewrite Hsid; reflexivity).
  destruct r as [|[|] [d|]]; try discriminate Hf;
    rewrite !seq_fst, !seq_snd; cbn -[handleLocalResponse]; rewrite ?app_nil_r;
    fold p; rewrite H1, H2, H3, H4;
    (split_and!; auto;
     [ intros a; split;
       [ intros [Hx | Hx]; [discriminate Hx |];
         try (destruct Hx as [Hx | Hx]; [discriminate Hx |]); exact Hx
       | intros Hx; right; try right; exact Hx ]
     | unfold isLocalMode; simpl; rewrite Hsid; reflexivity ]).
Qed.

Lemma message_failure_degrades_witness :
  truthy (trim "39.5") = true /\
  isLocalMode (remoteAt "temperature") = false /\
  failed (@Rejected MessageData) = true /\
  completed (fst (sendMessage (remoteAt "temperature") "39.5" 4000 Rejected Rejected
                    (remoteAt "temperature"))) = true /\
  isLocalMode (fst (sendMessage (remoteAt "temperature") "39.5" 4000 Rejected Rejected
                    (remoteAt "temperature"))) = false.
Proof.
  split; [reflexivity|]. split; [reflexivity|]. split; [reflexivity|].
  destruct (message_failure_degrades (remoteAt "temperature") (remoteAt "temperature")
              "39.5" 4000 Rejected Rejected eq_refl eq_refl eq_refl eq_refl eq_refl)
    as (_ & _ & Hc & _ & _ & _ & Hm).
  split; [rewrite Hc; reflexivity | rewrite Hm; reflexivity].
Defined.

(** *** Properties of the frontend copy *)



(** X16.  A choice button of the frontend copy does not send the choice:
    [handleSend] runs with the input the render captured.  With an empty
    input box (or one with only ASCII white space) the click only writes
    the choice into the box and nothing is sent; with an ASCII text that
    is not blank in the box, that text is what is sent and shown, and the
    choice is wiped from the box. *)
Theorem frontend_choice_sends_typed_text (c s : State) (choice : string) (now : Z)
    (r : FetchResult MessageData) (rep : FetchResult unit) :
  let res := Frontend.handleChoice c choice now r rep s in
  (blank (input c) -> res = (fst (setInput choice s), [])) /\
  (asciiText (input c) -> ~ blank (input c) ->
   loading c = false -> completed c = false ->
   truthy_opt (sessionId c) = true ->
     In (PostMessage (sessionId c) (trim (input c))
           (Some (currentStep c, sessionData c))) (snd res) /\
     (exists l, messages (fst res) = messages s ++ userMessage (input c) now :: l) /\
     input (fst res) = "").
Proof.
  intros res. subst res. unfold Frontend.handleChoice. split.
  - intros Hb. apply truthy_trim in Hb.
    unfold Frontend.handleSend. rewrite Hb. reflexivity.
  - intros _ Hb Hl Hc Hsid.
    assert (Ht : truthy (trim (input c)) = true).
    { destruct (truthy (trim (input c))) eqn:E; [reflexivity|].
      exfalso. apply Hb, truthy_trim, E. }
    unfold Frontend.handleSend. rewrite Ht, Hl, Hc, Hsid. cbn [negb orb].
    destruct r as [|[|] [d|]]; simpl;
      try (split_and!; auto; eexists; reflexivity).
    destruct (md_session_data d), (md_next_question d), (md_completed d),
             (md_analysis d), rep; simpl;
      (split_and!; auto; eexists; rewrite <- ?app_assoc; reflexivity).
Qed.

Lemma frontend_choice_sends_typed_text_witness :
  (blank (input (remoteTyped "")) /\
   Frontend.handleChoice (remoteTyped "") "Yes" 2000 Rejected Rejected (remoteTyped "")
     = (remoteTyped "Yes", [])) /\
  (asciiText (input (remoteTyped "38.5")) /\
   ~ blank (input (remoteTyped "38.5")) /\
   In (PostMessage (Some "c0ffee") "38.5" (Some ("has_fever", ∅)))
      (snd (Frontend.handleChoice (remoteTyped "38.5") "Yes" 2000 Rejected Rejected
              (remoteTyped "38.5")))).
Proof.
  assert (Hb : blank (input (remoteTyped ""))) by constructor.
  assert (Ha : asciiText (input (remoteTyped "38.5")))
    by (repeat (constructor; [reflexivity|]); constructor).
  assert (Hn : ~ blank (input (remoteTyped "38.5"))).
  { intros H. apply truthy_trim in H. discriminate H. }
  split.
  - split; [exact Hb|].
    exact (proj1 (frontend_choice_sends_typed_text (remoteTyped "") (remoteTyped "")
                    "Yes" 2000 Rejected Rejected) Hb).
  - split; [exact Ha|]. split; [exact Hn|].
    destruct (frontend_choice_sends_typed_text (remoteTyped "38.5")
                (remoteTyped "38.5") "Yes" 2000 Rejected Rejected) as (_ & H).
    exact (proj1 (H Ha Hn eq_refl eq_refl eq_refl)).
Defined.

(** X17.  In the frontend copy a reply with a next question only moves on:
    the step becomes the question's key (the empty string when it has
    none), the answers are replaced by the reply's [session_data] when it
    has one (not merged), and the session is not completed even when the
    reply is flagged [completed] and carries an analysis.  A reply without
    a next question that is not both flagged [completed] and carrying an
    analysis is swallowed: the user's message stays without any reply, and
    step and completion flag are as before. *)
Theorem frontend_reply_handling (c s : State) (now : Z) (data : MessageData)
    (rep : FetchResult unit) :
  truthy (trim (input c)) = true -> loading c = false -> completed c = false ->
  truthy_opt (sessionId c) = true ->
  let res := Frontend.handleSend c now (Response true (Some data)) rep s in
  sessionData (fst res) = default (sessionData s) (md_session_data data) /\
  (forall q, md_next_question data = Some q ->
     currentStep (fst res) = or_else (q_key q) "" /\
     completed (fst res) = completed s /\
     (exists b, messages (fst res) = messages s ++ [userMessage (input c) now; b] /\
                m_question b = Some q /\ m_analysis b = None) /\
     forall e, In e (snd res) -> exists sid m x, e = PostMessage sid m x) /\
  (md_next_question data = None ->
   md_completed data = false \/ md_analysis data = None ->
     messages (fst res) = messages s ++ [userMessage (input c) now] /\
     currentStep (fst res) = currentStep s /\
     completed (fst res) = completed s /\
     error (fst res) = None).
Proof.
  intros Ht Hl Hc Hsid res. subst res.
  unfold Frontend.handleSend. rewrite Ht, Hl, Hc, Hsid. cbn [negb orb].
  split_and!.
  - destruct (md_session_data data), (md_next_question data), (md_completed data),
             (md_analysis data), rep; reflexivity.
  - intros q ->.
    destruct (md_session_data data); simpl;
      (split_and!; auto;
       [ eexists; rewrite <- app_assoc; split_and!; reflexivity
       | intros e [<- | []]; eauto ]).
  - intros -> Hor.
    destruct (md_session_data data), (md_completed data), (md_analysis data);
      simpl; try (split_and!; reflexivity);
      destruct Hor; discriminate.
Qed.

Lemma frontend_reply_handling_witness :
  truthy (trim (input (remoteTyped "39"))) = true /\
  messages (fst (Frontend.handleSend (remoteTyped "39") 2000
                   (Response true (Some {| md_session_data := None;
                      md_message := Some "High risk"; md_response := None;
                      md_next_question := None; md_question := None;
                      md_analysis := Some noFeverAnalysis; md_completed := false;
                      md_next_step := None |})) Rejected (remoteTyped "39")))
    = [userMessage "39" 2000].
Proof.
  split; [reflexivity|].
  destruct (frontend_reply_handling (remoteTyped "39") (remoteTyped "39") 2000
              {| md_session_data := None;
                 md_message := Some "High risk"; md_response := None;
                 md_next_question := None; md_question := None;
                 md_analysis := Some noFeverAnalysis; md_completed := false;
                 md_next_step := None |} Rejected eq_refl eq_refl eq_refl eq_refl)
    as (_ & _ & H).
  exact (proj1 (H eq_refl (or_introl eq_refl))).
Defined.

Lemma existsb_eqb_elem_of (o : string) (l : list string) :
  existsb (String.eqb o) l = true <-> o ∈ l.
Proof.
  rewrite existsb_exists. split.
  - intros (x & Hx & He). apply String.eqb_eq in He. subst x.
    apply list_elem_of_In, Hx.
  - intros H. exists o. split; [apply list_elem_of_In, H | apply String.eqb_refl].
Qed.

Lemma filter_other_id (o : string) (l : list string) :
  o ∉ l -> filter (fun x => negb (String.eqb x o)) l = l.
Proof.
  induction l as [|x l IH]; intros Hn; [reflexivity|].
  apply not_elem_of_cons in Hn as [Hne Hn].
  rewrite filter_cons_True.
  - f_equal. apply IH, Hn.
  - apply Is_true_true, negb_true_iff, String.eqb_neq. congruence.
Qed.

(** X18.  The toggle of a multiple-choice option: afterwards the option is
    selected exactly when it was not before, every other option is
    selected exactly when it was, and a selection without repetition stays
    so; toggling twice an option that was not selected gives the
    selection back.  [handleMultiChoice] stores the toggled selection
    under the current step (a step without entry counts as empty) and
    leaves the other steps alone. *)
Theorem toggle_option (current : list string) (o : string) :
  (o ∈ Frontend.toggleOption current o <-> o ∉ current) /\
  (forall x, x <> o -> (x ∈ Frontend.toggleOption current o <-> x ∈ current)) /\
  (NoDup current -> NoDup (Frontend.toggleOption current o)) /\
  (o ∉ current ->
     Frontend.toggleOption (Frontend.toggleOption current o) o = current) /\
  (forall step (selections : gmap string (list string)),
     Frontend.handleMultiChoice step selections o !! step
       = Some (Frontend.toggleOption (default [] (selections !! step)) o) /\
     forall k, k <> step ->
       Frontend.handleMultiChoice step selections o !! k = selections !! k).
Proof.
  unfold Frontend.toggleOption.
  destruct (existsb (String.eqb o) current) eqn:E.
  - assert (Hin : o ∈ current) by (apply existsb_eqb_elem_of, E).
    split_and!.
    + rewrite list_elem_of_filter, String.eqb_refl. simpl. tauto.
    + intros x Hx. rewrite list_elem_of_filter.
      apply String.eqb_neq in Hx. rewrite Hx. simpl. tauto.
    + apply NoDup_filter.
    + intros Hn. contradiction.
    + intros step selections. unfold Frontend.handleMultiChoice. split.
      * apply lookup_insert_eq.
      * intros k Hk. apply lookup_insert_ne. congruence.
  - assert (Hn : o ∉ current).
    { intros H. apply existsb_eqb_elem_of in H. congruence. }
    split_and!.
    + rewrite elem_of_app, list_elem_of_singleton. tauto.
    + intros x Hx. rewrite elem_of_app, list_elem_of_singleton. tauto.
    + intros Hd. apply NoDup_app. split_and!; [exact Hd | | apply NoDup_singleton].
      intros x Hx Hxo. apply list_elem_of_singleton in Hxo. congruence.
    + intros _.
      assert (E' : existsb (String.eqb o) (current ++ [o]) = true).
      { apply existsb_eqb_elem_of, elem_of_app. right. apply list_elem_of_singleton.
        reflexivity. }
      rewrite E', filter_app, (filter_other_id o current Hn), filter_cons_False.
      * apply app_nil_r.
      * rewrite String.eqb_refl. simpl. tauto.
    + intros step selections. unfold Frontend.handleMultiChoice. split.
      * apply lookup_insert_eq.
      * intros k Hk. apply lookup_insert_ne. congruence.
Qed.

Lemma toggle_option_witness :
  ("Cough" ∉ ["Headache"; "Fatigue"]) /\
  Frontend.toggleOption (Frontend.toggleOption ["Headache"; "Fatigue"] "Cough") "Cough"
    = ["Headache"; "Fatigue"].
Proof.
  assert (Hn : "Cough" ∉ ["Headache"; "Fatigue"]).
  { intros H. apply list_elem_of_In in H. simpl in H.
    destruct H as [H | [H | []]]; discriminate H. }
  split; [exact Hn|].
  destruct (toggle_option ["Headache"; "Fatigue"] "Cough") as (_ & _ & _ & H & _).
  exact (H Hn).
Defined.

(** X19.  For every analysis the local engine hands out, the two
    components show the same badge: the variant the patient portal picks
    from the level is the one the frontend copy picks from the score. *)
Theorem badges_agree (c s : State) (text : string) (now : Z) (a : Analysis) :
  In (OnComplete a) (snd (handleLocalResponse c text now s)) ->
  PatientPortal.badgeVariant a = Frontend.badgeVariant a.
Proof.
  intros Hin.
  destruct (engine_step c s text now)
    as (_ & _ & [[_ Htr] | (a' & m & Hp & _ & _ & _ & Htr)]);
    rewrite Htr in Hin; [destruct Hin|].
  destruct Hin as [Heq | []]. injection Heq as <-.
  destruct Hp as [(t & _ & ->) | [-> | ->]]; try reflexivity.
  unfold temperatureAnalysis.
  destruct (gt t (of_Z 39)); [|destruct (gt t (of_Z 38))]; reflexivity.
Qed.

Lemma badges_agree_witness :
  In (OnComplete (temperatureAnalysis (parseFloat "40")))
     (snd (handleLocalResponse (localAt "temperature") "40" 4000
             (localAt "temperature"))) /\
  PatientPortal.badgeVariant (temperatureAnalysis (parseFloat "40")) = "destructive" /\
  Frontend.badgeVariant (temperatureAnalysis (parseFloat "40")) = "destructive".
Proof.
  assert (Hin : In (OnComplete (temperatureAnalysis (parseFloat "40")))
     (snd (handleLocalResponse (localAt "temperature") "40" 4000
             (localAt "temperature")))) by (left; reflexivity).
  split; [exact Hin|]. split; [reflexivity|].
  rewrite <- (badges_agree _ _ _ _ _ Hin). reflexivity.
Defined.

(** *** Numbers followed by text *)

Lemma digits_app (d rest : string) :
  allDigits d ->
  (forall ch r, rest = String ch r -> isDigit ch = false) ->
  forall acc cnt,
    exists v,
      digits acc cnt (String.append d rest) = (v, cnt + Z.of_nat (String.length d), rest) /\
      digits acc cnt d = (v, cnt + Z.of_nat (String.length d), "").
Proof.
  unfold allDigits. intros Hd Hrest.
  induction d as [|ch d IH]; intros acc cnt.
  - exists acc. simpl. rewrite Z.add_0_r. split; [|reflexivity].
    destruct rest as [|ch r]; [reflexivity|].
    simpl. specialize (Hrest ch r eq_refl). unfold isDigit in Hrest.
    destruct (digit_of ch); [discriminate Hrest | reflexivity].
  - simpl in Hd. inversion Hd as [|? ? Hch Hd']; subst.
    unfold isDigit in Hch. simpl.
    destruct (digit_of ch) as [dv|]; [|discriminate Hch].
    destruct (IH Hd' (10 * acc + dv) (cnt + 1)) as (v & H1 & H2).
    exists v. rewrite H1, H2.
    replace (cnt + 1 + Z.of_nat (String.length d))
      with (cnt + Z.of_nat (S (String.length d))) by lia.
    split; reflexivity.
Qed.

Lemma endsNumber_facts (ch : ascii) :
  endsNumber ch = true ->
  isDigit ch = false /\ Ascii.eqb ch "." = false /\
  Ascii.eqb ch "e" = false /\ Ascii.eqb ch "E" = false.
Proof.
  unfold endsNumber. rewrite !andb_true_iff, !negb_true_iff. tauto.
Qed.

Lemma append_assoc (a b c : string) :
  String.append (String.append a b) c = String.append a (String.append b c).
Proof.
  induction a as [|x a IH]; [reflexivity|].
  change (String x (String.append (String.append a b) c)
          = String x (String.append a (String.append b c))).
  f_equal. exact IH.
Qed.

Lemma count_positive (n : nat) : (0 <? 0 + 1 + Z.of_nat n) = true.
Proof. apply Z.ltb_lt. lia. Qed.

(** X20.  Text after a number is ignored at the [temperature] step.  For a
    number written with digits, or with digits, a point and digits,
    [parseFloat] reads the same value when it is followed by any text that
    starts with a character other than a digit, the point and [e]/[E]
    (a unit, a space, a degree sign); so the engine answers the text with
    the unit exactly as it answers the bare number. *)
Theorem trailing_text_ignored (ch : ascii) (ip fp : string) (ch' : ascii)
    (rest : string) :
  isDigit ch = true ->
  allDigits ip ->
  allDigits fp ->
  endsNumber ch' = true ->
  let whole := String ch ip in
  let decimal := String.append whole (String "." fp) in
  let suffix := String ch' rest in
  parseFloat (String.append whole suffix) = parseFloat whole /\
  parseFloat (String.append decimal suffix) = parseFloat decimal /\
  (forall c s now, currentStep c = "temperature" ->
     handleLocalResponse c (String.append whole suffix) now s
       = handleLocalResponse c whole now s /\
     handleLocalResponse c (String.append decimal suffix) now s
       = handleLocalResponse c decimal now s).
Proof.
  intros Hch Hip Hfp Hend whole decimal suffix.
  destruct (endsNumber_facts ch' Hend) as (Hnd & Hdot & He & HE).
  assert (Hsuf : forall c r, suffix = String c r -> isDigit c = false).
  { intros c r Heq. injection Heq as <- _. exact Hnd. }
  assert (Hdotfp : forall c r, String "." fp = String c r -> isDigit c = false).
  { intros c r Heq. injection Heq as <- _. reflexivity. }
  assert (Hdotfps : forall c r,
            String "." (String.append fp suffix) = String c r -> isDigit c = false).
  { intros c r Heq. injection Heq as <- _. reflexivity. }
  assert (Hexp : exponent suffix = 0).
  { unfold suffix, exponent. rewrite He, HE. reflexivity. }
  assert (Hparse :
    parseFloat (String.append whole suffix) = parseFloat whole /\
    parseFloat (String.append decimal suffix) = parseFloat decimal).
  { assert (Happ : String.append decimal suffix =
              String.append whole (String "." (String.append fp suffix))).
    { unfold decimal. rewrite append_assoc. reflexivity. }
    rewrite Happ. unfold decimal, whole.
    unfold parseFloat, unsigned_literal.
    destruct ch as [[] [] [] [] [] [] [] []]; try discriminate Hch;
      cbn [String.append trimStart is_space N_of_ascii N.eqb N.leb orb andb
           String.prefix digits digit_of];
      simpl;
      match goal with
      | |- context [digits ?a ?k (String.append ip suffix)] =>
          destruct (digits_app ip suffix Hip Hsuf a k) as (v1 & -> & ->);
          destruct (digits_app ip (String "." fp) Hip Hdotfp a k) as (v2 & -> & E2);
          destruct (digits_app ip (String "." (String.append fp suffix)) Hip Hdotfps a k)
            as (v3 & -> & E3);
          rewrite E2 in E3; injection E3 as <-;
          destruct (digits_app fp suffix Hfp Hsuf v2 0) as (m & -> & ->)
      end;
      rewrite !count_positive; fold suffix; rewrite Hexp;
      (split; [| reflexivity]);
      unfold suffix;
      destruct ch' as [[] [] [] [] [] [] [] []];
      try discriminate Hdot; try discriminate He; try discriminate HE;
      reflexivity. }
  split; [exact (proj1 Hparse)|]. split; [exact (proj2 Hparse)|].
  intros c s now Hs. unfold handleLocalResponse. rewrite Hs. simpl.
  rewrite (proj1 Hparse), (proj2 Hparse). split; reflexivity.
Qed.

Lemma trailing_text_ignored_witness :
  isDigit "3" = true /\ allDigits "9" /\ allDigits "5" /\ endsNumber "C" = true /\
  parseFloat "39.5C" = parseFloat "39.5".
Proof.
  assert (H9 : allDigits "9") by (repeat constructor).
  assert (H5 : allDigits "5") by (repeat constructor).
  split; [reflexivity|]. split; [exact H9|]. split; [exact H5|]. split; [reflexivity|].
  exact (proj1 (proj2 (trailing_text_ignored "3" "9" "5" "C" "" eq_refl H9 H5 eq_refl))).
Defined.

(** Above a positive finite threshold stays above when the number grows. *)
Lemma gt_le_trans (mk : positive) (ek : Z) (t1 t2 : number) :
  gt t1 (S754_finite false mk ek) = true ->
  le t1 t2 = true ->
  gt t2 (S754_finite false mk ek) = true.
Proof.
  unfold gt, le, SFltb, SFleb.
  destruct t1 as [s1|s1| |s1 m1 e1], t2 as [s2|s2| |s2 m2 e2]; cbn [SFcompare];
    try discriminate;
    try (destruct s1; discriminate);
    try (destruct s1, s2; (discriminate || reflexivity)).
  destruct s1; [discriminate|]. destruct s2; [discriminate|].
  destruct (Z.compare_spec ek e1) as [Ek | Ek | Ek]; try discriminate;
    destruct (Z.compare_spec e1 e2) as [E12 | E12 | E12]; try discriminate;
    destruct (Z.compare_spec ek e2) as [Ek2 | Ek2 | Ek2]; try lia; try reflexivity.
  change (PosDef.Pos.compare_cont Eq mk m1) with (Pos.compare mk m1).
  change (PosDef.Pos.compare_cont Eq m1 m2) with (Pos.compare m1 m2).
  change (PosDef.Pos.compare_cont Eq mk m2) with (Pos.compare mk m2).
  destruct (Pos.compare_spec mk m1); try discriminate.
  destruct (Pos.compare_spec m1 m2); try discriminate;
    destruct (Pos.compare_spec mk m2); try reflexivity; lia.
Qed.

(** X21.  The temperature score never decreases with the reading: when
    one reading is at most another ([<=] on numbers, which holds of no
    [NaN]), its score is at most the other's. *)
Theorem temperature_score_monotone (t1 t2 : number) :
  le t1 t2 = true ->
  risk_score (temperatureAnalysis t1) <= risk_score (temperatureAnalysis t2).
Proof.
  intros Hle.
  pose proof (gt_le_trans 5488762045857792 (-47) t1 t2) as H39.
  pose proof (gt_le_trans 5348024557502464 (-47) t1 t2) as H38.
  change (S754_finite false 5488762045857792 (-47)) with (of_Z 39) in H39.
  change (S754_finite false 5348024557502464 (-47)) with (of_Z 38) in H38.
  pose proof (gt_39_38 t2) as Hmono.
  unfold temperatureAnalysis. cbn [risk_score].
  destruct (gt t1 (of_Z 39)) eqn:A1.
  - rewrite (H39 eq_refl Hle). lia.
  - destruct (gt t1 (of_Z 38)) eqn:B1.
    + specialize (H38 eq_refl Hle).
      destruct (gt t2 (of_Z 39)); [lia|]. rewrite H38. lia.
    + destruct (gt t2 (of_Z 39)); [lia|]. destruct (gt t2 (of_Z 38)); lia.
Qed.

Lemma temperature_score_monotone_witness :
  le (parseFloat "38.2") (parseFloat "39.4") = true /\
  risk_score (temperatureAnalysis (parseFloat "38.2"))
    <= risk_score (temperatureAnalysis (parseFloat "39.4")).
Proof.
  split; [reflexivity|].
  exact (temperature_score_monotone (parseFloat "38.2") (parseFloat "39.4") eq_refl).
Defined.
